(** * install_libcxx_printers.py: version resolution, selection and fetch

    A shallow embedding of [src/gdb/install_libcxx_printers.py] and the
    properties of its version-resolution and selection protocol.

    Python values are modelled as follows.
    - A [str] is a list of Unicode code points ([N]); literals are written
      with [lit].
    - A raised exception is a value of [pyexn]; a call that can raise, print
      or touch the host runs in the monad [M], which records the events in
      order and ends in a returned value, a raised exception, or in the
      exhaustion of the fuel that bounds the one [while True] loop.
    - Where the interpreter leaves an order open (the elements of a set)
      the host chooses it.
    - Everything the script asks of its host (file system, sub-processes,
      network, the interpreter's Unicode tables) is a field of [Host]. *)

From Stdlib Require Import NArith ZArith List String Ascii Lia Decimal.
From stdpp Require Import base option list gmap sets.

Local Open Scope N_scope.

(** ** Strings *)

Abbreviation char := N (only parsing).
Abbreviation str := (list N) (only parsing).

Definition lit (s : string) : str :=
  map N_of_ascii (list_ascii_of_string s).

Definition dquote : char := 34.
Definition squote : char := 39.
Definition newline : char := 10.
Definition tab : char := 9.
Definition slash : char := 47.
Definition dot : char := 46.
Definition underscore : char := 95.

(** [s.startswith(p)] *)
Fixpoint startswith (p s : str) : bool :=
  match p, s with
  | [], _ => true
  | _ :: _, [] => false
  | a :: p', b :: s' => (a =? b) && startswith p' s'
  end.

(** [needle in hay] on strings: the substring test. *)
Fixpoint str_in (needle hay : str) : bool :=
  startswith needle hay ||
  match hay with
  | [] => false
  | _ :: t => str_in needle t
  end.

(** [x in l] on a list of strings. *)
Definition list_in (x : str) (l : list str) : bool :=
  existsb (fun y => bool_decide (x = y)) l.

(** [sep.join(l)] *)
Fixpoint join (sep : str) (l : list str) : str :=
  match l with
  | [] => []
  | [x] => x
  | x :: t => x ++ sep ++ join sep t
  end.

(** [s.split(sep)] for a one-character separator. *)
Fixpoint split_on (sep : char) (s : str) : list str :=
  match s with
  | [] => [[]]
  | c :: t =>
      if c =? sep then [] :: split_on sep t
      else match split_on sep t with
           | [] => [[c]]
           | w :: ws => (c :: w) :: ws
           end
  end.

(** Line boundaries of [str.splitlines]: LF, VT, FF, CR, FS, GS, RS, NEL,
    LINE SEPARATOR and PARAGRAPH SEPARATOR; CR LF counts as one. *)
Definition is_linebreak (c : char) : bool :=
  existsb (N.eqb c) [10; 11; 12; 13; 28; 29; 30; 133; 8232; 8233].

Fixpoint splitlines_from (cur : str) (s : str) : list str :=
  match s with
  | [] => match cur with [] => [] | _ => [rev cur] end
  | c :: t =>
      if is_linebreak c then
        rev cur ::
        match t with
        | d :: t' =>
            if (c =? 13) && (d =? 10) then splitlines_from [] t'
            else splitlines_from [] t
        | [] => splitlines_from [] t
        end
      else splitlines_from (c :: cur) t
  end.

Definition splitlines (s : str) : list str := splitlines_from [] s.

(** [str(n)] for a non-negative integer. *)
Fixpoint uint_digits (d : Decimal.uint) : str :=
  match d with
  | Decimal.Nil => []
  | Decimal.D0 d => 48 :: uint_digits d
  | Decimal.D1 d => 49 :: uint_digits d
  | Decimal.D2 d => 50 :: uint_digits d
  | Decimal.D3 d => 51 :: uint_digits d
  | Decimal.D4 d => 52 :: uint_digits d
  | Decimal.D5 d => 53 :: uint_digits d
  | Decimal.D6 d => 54 :: uint_digits d
  | Decimal.D7 d => 55 :: uint_digits d
  | Decimal.D8 d => 56 :: uint_digits d
  | Decimal.D9 d => 57 :: uint_digits d
  end.

Definition str_of_int (n : N) : str := uint_digits (N.to_uint n).

(** [repr] of a list of strings that need no escaping (version strings). *)
Definition repr_list (l : list str) : str :=
  lit "[" ++ join (lit ", ") (map (fun x => squote :: x ++ [squote]) l) ++ lit "]".

(** ** pathlib.Path (POSIX flavour)

    A path is its root (empty, one slash, or exactly two slashes) and its
    components; [Path] drops empty and single-dot components. *)

Record PurePath : Type := { root : str; parts : list str }.

#[global] Instance PurePath_eq_dec : EqDecision PurePath.
Proof. solve_decision. Defined.

Definition path_root (s : str) : str :=
  match s with
  | a :: rest =>
      if a =? slash then
        match rest with
        | b :: rest' =>
            if b =? slash then
              match rest' with
              | c :: _ => if c =? slash then [slash] else [slash; slash]
              | [] => [slash; slash]
              end
            else [slash]
        | [] => [slash]
        end
      else []
  | [] => []
  end.

Definition keep_part (x : str) : bool :=
  match x with
  | [] => false
  | [c] => negb (c =? dot)
  | _ => true
  end.

Definition Path (s : str) : PurePath :=
  {| root := path_root s; parts := filter (fun x => keep_part x = true) (split_on slash s) |}.

(** [str(path)] *)
Definition Path_str (p : PurePath) : str :=
  match parts p with
  | [] => match root p with [] => [dot] | r => r end
  | ps => root p ++ join [slash] ps
  end.

(** [path.parent]: the path without its last component; a path without
    components (the root, or the current directory) is its own parent. *)
Definition parent (p : PurePath) : PurePath :=
  {| root := root p; parts := removelast (parts p) |}.

(** ** Exceptions, events and the host *)

(** What [urllib.request.urlopen] and the copy into the destination file can
    raise, as far as the handlers of [download_file] tell them apart. *)
Inductive transport_failure : Type :=
| HTTPError (code : N) (reason : str)    (* urllib.error.HTTPError *)
| URLError (reason : str)                (* urllib.error.URLError, reason rendered *)
| TimeoutError                           (* the built-in TimeoutError *)
| OtherException (text : str).           (* any other Exception, text = str(e) *)

(** The exception a [raise ... from e] names as its cause. *)
Inductive cause : Type :=
| FileNotFoundError
| Transport (t : transport_failure).

Inductive pyexn : Type :=
| RuntimeError (msg : str) (from : option cause)
| CalledProcessError (args : list str) (returncode : Z)
| UnboundLocalError (name : str)
| OSError (text : str)
| SystemExit (code : Z).

(** [subprocess.run(args, capture_output=True, text=True, check=True)] *)
Inductive run_result : Type :=
| Completed (stdout : str)
| CommandNotFound
| NonZeroExit (returncode : Z).

Inductive event : Type :=
| Print (line : str)
| Stderr (text : str)
| Run (args : list str)
| Mkdir (dir : PurePath)
| Urlopen (url : str) (timeout : N)
| WriteText (file : str) (contents : str).

(** [Path.exists()]: the path is there, or the stat call failed in one of
    the ways pathlib takes for absence (ENOENT, ENOTDIR, EBADF, ELOOP), or
    it failed in another way (EACCES on an unsearchable ancestor,
    ENAMETOOLONG, ...) and pathlib lets that OSError through. *)
Inductive stat_answer : Type :=
| Present
| Absent
| StatRaises (err : str).

Definition answer (b : bool) : stat_answer := if b then Present else Absent.

Record Host : Type := {
  (* os.path on strings *)
  os_path_exists : str -> bool;
  os_path_isfile : str -> bool;
  os_path_islink : str -> bool;
  os_path_realpath : str -> str;
  (* pathlib / os.access on Path objects *)
  Path_exists : PurePath -> stat_answer;
  os_access_W_OK : PurePath -> bool;
  Path_mkdir : PurePath -> option str;
  (* subprocess *)
  subprocess_run : list str -> run_result;
  (* urlopen followed by the copy into the opened destination file *)
  urlopen_copy : str -> str -> option transport_failure;
  (* open(file, "w") followed by write *)
  write_text : str -> str -> option str;
  (* the interpreter's Unicode tables beyond ASCII: category Nd (the class
     \d of the re module) and str.lower on one code point *)
  unicode_Nd : char -> bool;
  unicode_lower : char -> str;
  (* the order in which a set of strings yields its elements, given the
     strings in the order they were added: it depends on the hash seed of
     the process and on the insertions *)
  set_iteration : list str -> list str
}.

Inductive outcome (A : Type) : Type :=
| Returns (a : A)
| Raises (e : pyexn)
| OutOfFuel.
Arguments Returns {A} a.
Arguments Raises {A} e.
Arguments OutOfFuel {A}.

Definition M (A : Type) : Type := (list event * outcome A)%type.

Definition ret {A} (a : A) : M A := ([], Returns a).
Definition raise {A} (e : pyexn) : M A := ([], Raises e).
Definition emit (ev : event) : M unit := ([ev], Returns tt).
Definition print (line : str) : M unit := emit (Print line).

Definition bind {A B} (m : M A) (k : A -> M B) : M B :=
  match m with
  | (t, Returns a) => let (t', r) := k a in (t ++ t', r)
  | (t, Raises e) => (t, Raises e)
  | (t, OutOfFuel) => (t, OutOfFuel)
  end.

Notation "x <- c1 ;; c2" := (bind c1 (fun x => c2))
  (at level 100, c1 at next level, right associativity).
Notation "c1 ;;; c2" := (bind c1 (fun _ => c2))
  (at level 100, right associativity).

Definition events {A} (m : M A) : list event := fst m.
Definition result {A} (m : M A) : outcome A := snd m.

(** The status the interpreter exits with: 0 after a normal return, the
    code of [sys.exit], 1 after any other uncaught exception. *)
Definition exit_status {A} (m : M A) : option Z :=
  match result m with
  | Returns _ => Some 0%Z
  | Raises (SystemExit c) => Some c
  | Raises _ => Some 1%Z
  | OutOfFuel => None
  end.

(** Lines written to standard output. *)
Definition stdout_lines {A} (m : M A) : list str :=
  omap (fun ev => match ev with Print l => Some l | _ => None end) (events m).

Definition is_urlopen (ev : event) : bool :=
  match ev with Urlopen _ _ => true | _ => false end.

(** Number of network calls made. *)
Definition network_calls {A} (m : M A) : nat :=
  length (filter (fun ev => is_urlopen ev = true) (events m)).

(** ** find_real_path (lines 15-20) *)

Definition find_real_path (h : Host) (path : str) : M str :=
  if negb (os_path_exists h path) then
    raise (RuntimeError (lit "File does not exist: " ++ path) None)
  else if negb (os_path_isfile h path) && negb (os_path_islink h path) then
    raise (RuntimeError (lit "Path is not a real file or a link: " ++ path) None)
  else ret (os_path_realpath h path).

(** ** download_file (lines 22-47) *)

(** The [while True] loop of lines 25-28, bounded by [fuel] iterations: it
    returns the answer of [os.access], or ends in the OSError that
    [path.exists()] lets through. *)
Fixpoint has_write_access (h : Host) (fuel : nat) (path : PurePath) : outcome bool :=
  match fuel with
  | O => OutOfFuel
  | S fuel' =>
      match Path_exists h path with
      | Present => Returns (os_access_W_OK h path)
      | Absent => has_write_access h fuel' (parent path)
      | StatRaises err => Raises (OSError err)
      end
  end.

Definition lift_loop {A} (o : outcome A) : M A := ([], o).

Definition quoted_url (url : str) : str :=
  [newline; squote] ++ url ++ [squote].

(** The handlers of lines 40-47. The handler of [TimeoutError] binds no
    name, so evaluating its [from e] raises [UnboundLocalError]. *)
Definition download_handler (url : str) (t : transport_failure) : pyexn :=
  match t with
  | HTTPError code reason =>
      RuntimeError
        (lit "HTTP Error: " ++ str_of_int code ++ lit " " ++ reason ++ quoted_url url)
        (Some (Transport t))
  | URLError reason =>
      RuntimeError (lit "URL Error: " ++ reason ++ quoted_url url) (Some (Transport t))
  | TimeoutError => UnboundLocalError (lit "e")
  | OtherException text =>
      RuntimeError (lit "An unexpected error occurred: " ++ text) (Some (Transport t))
  end.

Definition download_file (h : Host) (fuel : nat) (url file_path : str) : M bool :=
  ok <- lift_loop (has_write_access h fuel (Path file_path)) ;;
  if negb ok then ret false
  else
    let dir := parent (Path file_path) in
    emit (Mkdir dir) ;;;
    match Path_mkdir h dir with
    | Some err => raise (OSError err)
    | None =>
        emit (Urlopen url 10) ;;;
        match urlopen_copy h url file_path with
        | None => ret true
        | Some t => raise (download_handler url t)
        end
    end.

(** ** find_libcxx_version (lines 51-97) *)

Definition run_command (h : Host) (args : list str) : M str :=
  emit (Run args) ;;;
  match subprocess_run h args with
  | Completed stdout => ret stdout
  | CommandNotFound =>
      raise (RuntimeError
               (lit "Error: command " ++ [dquote] ++ hd [] args ++ [dquote] ++ lit " not found")
               (Some FileNotFoundError))
  | NonZeroExit code => raise (CalledProcessError args code)
  end.

(** The class [\d] of a [str] pattern: the ASCII digits and, beyond ASCII,
    the host's category Nd. *)
Definition is_digit (h : Host) (c : char) : bool :=
  if c <? 128 then (48 <=? c) && (c <=? 57) else unicode_Nd h c.

(** The longest run of digits at the head of [s], and the rest. *)
Fixpoint span_digits (h : Host) (s : str) : str * str :=
  match s with
  | [] => ([], [])
  | c :: t =>
      if is_digit h c then let (d, r) := span_digits h t in (c :: d, r)
      else ([], s)
  end.

(** One [\d+]. *)
Definition digits1 (h : Host) (s : str) : option (str * str) :=
  match span_digits h s with
  | ([], _) => None
  | (d, r) => Some (d, r)
  end.

Definition strip_prefix (p s : str) : option str :=
  if startswith p s then Some (drop (length p) s) else None.

(** A match of [prefix(\d+\.\d+\.\d+)suffix] starting at the head of [s];
    the result is group 1. [re_prefix] and [re_suffix] are given as the
    text they match. At both call sites each [\d+] is followed by a
    character that is no digit (a dot, a closing parenthesis, a tilde), so
    the greedy run is the only candidate and backtracking finds no other
    match. *)
Definition match_version_at (h : Host) (re_prefix re_suffix s : str) : option str :=
  s1 ← strip_prefix re_prefix s;
  '(a, s2) ← digits1 h s1;
  s3 ← strip_prefix [dot] s2;
  '(b, s4) ← digits1 h s3;
  s5 ← strip_prefix [dot] s4;
  '(c, s6) ← digits1 h s5;
  _ ← strip_prefix re_suffix s6;
  Some (a ++ [dot] ++ b ++ [dot] ++ c).

(** [re.search(pattern, line)]: the leftmost match, as its group 1. *)
Fixpoint re_search (h : Host) (re_prefix re_suffix line : str) : option str :=
  match match_version_at h re_prefix re_suffix line with
  | Some v => Some v
  | None =>
      match line with
      | [] => None
      | _ :: t => re_search h re_prefix re_suffix t
      end
  end.

(** The set built by the loop of lines 66-70. *)
Definition version_set (h : Host) (lines : list str) (re_prefix re_suffix : str) : gset str :=
  foldl (fun versions line =>
           match re_search h re_prefix re_suffix line with
           | Some v => versions ∪ {[ v ]}
           | None => versions
           end) ∅ lines.

(** [list(versions)]: the elements of the set in the order the host's sets
    yield them after the insertions [added]; an answer of the host that is
    no ordering of the set is not taken. *)
Definition list_of_set (h : Host) (added : list str) (versions : gset str) : list str :=
  if decide (set_iteration h added ≡ₚ elements versions)
  then set_iteration h added
  else elements versions.

(** Lines 63-71. *)
Definition extract_version_numbers (h : Host) (lines : list str) (re_prefix re_suffix : str)
  : list str :=
  list_of_set h (omap (re_search h re_prefix re_suffix) lines)
              (version_set h lines re_prefix re_suffix).

Definition find_installed_libcxx_package_versions (h : Host) : M (list str) :=
  result <- run_command h [lit "dpkg"; lit "-l"] ;;
  let lines := filter (fun line => str_in (lit "  libc++") line = true) (splitlines result) in
  ret (extract_version_numbers h lines (lit "1:") (lit "~")).

Definition cmake_var : str := lit "LLVM_PACKAGE_VERSION".

Definition no_version_message (dir : PurePath) : str :=
  lit "Unable to find " ++ [dquote] ++ cmake_var ++ [dquote] ++ lit " in " ++ Path_str dir.

Definition ambiguous_message (versions : list str) : str :=
  lit "Found more than one definition of " ++ [dquote] ++ cmake_var ++ [dquote]
  ++ lit ":" ++ [newline; tab] ++ join (lit ", ") versions.

Definition find_libcxx_so_version (h : Host) (libcxx_so_path : str) : M str :=
  real <- find_real_path h libcxx_so_path ;;
  let libcxx_so_dir := parent (Path real) in
  result <- run_command h [lit "grep"; lit "-r"; cmake_var; Path_str libcxx_so_dir] ;;
  let lines := splitlines result in
  let versions :=
    extract_version_numbers h lines (lit "set(" ++ cmake_var ++ lit " ") (lit ")") in
  match versions with
  | [] => raise (RuntimeError (no_version_message libcxx_so_dir) None)
  | [v] => ret v
  | _ => raise (RuntimeError (ambiguous_message versions) None)
  end.

Definition mismatch_warning (libcxx_so_path so_version : str) (package_versions : list str) : str :=
  lit "Warning: " ++ libcxx_so_path ++ lit " version found to be " ++ so_version
  ++ lit ", does not match installed package versions: " ++ repr_list package_versions.

Definition find_libcxx_version (h : Host) (libcxx_so_path : str) : M str :=
  so_version <- find_libcxx_so_version h libcxx_so_path ;;
  package_versions <- find_installed_libcxx_package_versions h ;;
  (if negb (list_in so_version package_versions)
   then print (mismatch_warning libcxx_so_path so_version package_versions)
   else ret tt) ;;;
  ret so_version.

(** ** auto_load_file_contents (lines 101-118) *)

Definition auto_load_file_contents (download_to module_name : str) : str :=
  concat (map (fun l => l ++ [newline])
    [ lit "# Copyright 2025 Braden Ganetsky";
      lit "# Distributed under the Boost Software License, Version 1.0.";
      lit "# https://www.boost.org/LICENSE_1_0.txt";
      [];
      lit "import gdb";
      lit "import sys";
      [];
      lit "# Update module path. GCC does this with relative paths for";
      lit "# relocatability, but this script is much simpler";
      lit "pythondir = " ++ [dquote] ++ download_to ++ [dquote];
      lit "if not pythondir in sys.path:";
      lit "    sys.path.insert(0, pythondir)";
      [];
      lit "import " ++ module_name;
      module_name ++ lit ".register_libcxx_printer_loader()" ]).

(** ** parse_args (lines 122-198) *)

(** The namespace argparse hands back: an option that was not given is
    [None]. [select] and [parse_args] are the function from line 175 on,
    for any namespace; the call of argparse of lines 173-174, which may end
    the run itself, is modelled with [script] below. *)
Record Args : Type := {
  args_tag : option str;
  args_branch : option str;
  args_commit : option str;
  args_download_to : str;
  args_libcxx_so : str
}.

(** Truth value of [args.tag] and its like: [None] and the empty string are
    false. *)
Definition truthy (o : option str) : bool :=
  match o with
  | Some (_ :: _) => true
  | _ => false
  end.

Definition value (o : option str) : str := default [] o.

(** The branch of lines 175-187 that ran. *)
Inductive channel : Type := ViaTag | ViaBranch | ViaCommit | ViaDerived.

Record Selector : Type := {
  variant : channel;
  url_middle : str;
  file_suffix : str
}.

(** Lines 175-187. *)
Definition select (h : Host) (args : Args) : M Selector :=
  if truthy (args_tag args) then
    ret {| variant := ViaTag;
           url_middle := lit "refs/tags/" ++ value (args_tag args);
           file_suffix := lit "tag_" ++ value (args_tag args) |}
  else if truthy (args_branch args) then
    ret {| variant := ViaBranch;
           url_middle := lit "refs/heads/" ++ value (args_branch args);
           file_suffix := lit "branch_" ++ value (args_branch args) |}
  else if truthy (args_commit args) then
    ret {| variant := ViaCommit;
           url_middle := value (args_commit args);
           file_suffix := lit "commit_" ++ take 11 (value (args_commit args)) |}
  else
    version <- find_libcxx_version h (args_libcxx_so args) ;;
    ret {| variant := ViaDerived;
           url_middle := lit "refs/tags/llvmorg-" ++ version;
           file_suffix := lit "tag_llvmorg_" ++ version |}.

(** [char.lower()]: ASCII by the ASCII rule; U+212A KELVIN SIGN has the
    lower case U+006B; every other code point by the host's table. *)
Definition lower (h : Host) (c : char) : str :=
  if c <? 128 then
    (if (65 <=? c) && (c <=? 90) then [c + 32] else [c])
  else if c =? 0x212A then [107]
  else unicode_lower h c.

Definition alphabet : str := lit "_abcdefghijklmnopqrstuvwxyz0123456789".

(** Lines 189-191. *)
Definition sanitize (h : Host) (file_suffix : str) : str :=
  map (fun c => if str_in (lower h c) alphabet then c else underscore) file_suffix.

Record Plan : Type := {
  url : str;
  file_name : str;
  download_to : str;
  libcxx_so_path : str
}.

Definition make_url (url_middle : str) : str :=
  lit "https://raw.githubusercontent.com/llvm/llvm-project/" ++ url_middle
  ++ lit "/libcxx/utils/gdb/libcxx/printers.py".

Definition parse_args (h : Host) (args : Args) : M Plan :=
  sel <- select h args ;;
  let file_suffix := sanitize h (file_suffix sel) in
  real <- find_real_path h (args_libcxx_so args) ;;
  ret {| url := make_url (url_middle sel);
         file_name := lit "libcxx_printers_" ++ file_suffix;
         download_to := args_download_to args;
         libcxx_so_path := real |}.

(** ** main (lines 202-220) *)

Definition dest_path (download_to file_name : str) : str :=
  download_to ++ lit "/" ++ file_name ++ lit ".py".

Definition auto_load_path (libcxx_so_path : str) : str :=
  lit "/usr/share/gdb/auto-load" ++ libcxx_so_path ++ lit "-gdb.py".

Definition in_quotes (s : str) : str := [squote] ++ s ++ [squote].

Definition main (h : Host) (fuel : nat) (args : Args) : M unit :=
  plan <- parse_args h args ;;
  let file_path := dest_path (download_to plan) (file_name plan) in
  ok <- download_file h fuel (url plan) file_path ;;
  if negb ok then
    print (lit "Permission denied: " ++ in_quotes file_path) ;;;
    raise (SystemExit 1)
  else
    print (lit "Successfully downloaded: " ++ in_quotes (url plan)) ;;;
    print (lit "...and saved file to: " ++ in_quotes file_path) ;;;
    let auto_load_file_path := auto_load_path (libcxx_so_path plan) in
    emit (WriteText auto_load_file_path
            (auto_load_file_contents (download_to plan) (file_name plan))) ;;;
    match write_text h auto_load_file_path
            (auto_load_file_contents (download_to plan) (file_name plan)) with
    | Some err => raise (OSError err)
    | None => print (lit "Wrote GDB auto-load script to: " ++ in_quotes auto_load_file_path)
    end.

(** ** The command line (lines 173-174, 222-223)

    [parser.parse_args()] returns the namespace of the options, or prints
    the help on standard output and exits with status 0 (option -h), or
    prints a usage error on standard error and exits with status 2 (an
    unknown option, or two of the exclusive overrides). Which of the three
    a command line leads to is argparse's matter; [main] above is the run
    from the namespace on. *)
Inductive command_line : Type :=
| Namespace (args : Args)
| HelpRequested (help : str)
| UsageError (message : str).

Definition script (h : Host) (fuel : nat) (cl : command_line) : M unit :=
  match cl with
  | Namespace args => main h fuel args
  | HelpRequested help => print help ;;; raise (SystemExit 0)
  | UsageError message => emit (Stderr message) ;;; raise (SystemExit 2)
  end.

(** ** Vocabulary of the properties *)

(** The channel the precedence order tag, branch, commit, derived picks:
    the first one that is populated. *)
Definition first_populated (args : Args) : channel :=
  if truthy (args_tag args) then ViaTag
  else if truthy (args_branch args) then ViaBranch
  else if truthy (args_commit args) then ViaCommit
  else ViaDerived.

(** An override given as the empty string, taken as not given. *)
Definition drop_empty (o : option str) : option str :=
  match o with
  | Some [] => None
  | _ => o
  end.

Definition without_empty (args : Args) : Args :=
  {| args_tag := drop_empty (args_tag args);
     args_branch := drop_empty (args_branch args);
     args_commit := drop_empty (args_commit args);
     args_download_to := args_download_to args;
     args_libcxx_so := args_libcxx_so args |}.

(** The characters of [[A-Za-z0-9_]]. *)
Definition safe_char (c : char) : bool :=
  ((48 <=? c) && (c <=? 57)) || ((65 <=? c) && (c <=? 90))
  || ((97 <=? c) && (c <=? 122)) || (c =? underscore).

(** The [k]-th path of the upward walk that starts at [p]. *)
Definition ancestor (k : nat) (p : PurePath) : PurePath := Nat.iter k parent p.

(** The selector of the derived channel for version [v]. *)
Definition derived_selector (v : str) : Selector :=
  {| variant := ViaDerived;
     url_middle := lit "refs/tags/llvmorg-" ++ v;
     file_suffix := lit "tag_llvmorg_" ++ v |}.

Definition dpkg_command : list str := [lit "dpkg"; lit "-l"].

(** The pattern of the build-metadata marker, as the text around the
    version. *)
Definition marker_prefix : str := lit "set(" ++ cmake_var ++ lit " ".
Definition marker_suffix : str := lit ")".

(** The error of [run_command] when dpkg is not installed. *)
Definition dpkg_not_found : pyexn :=
  RuntimeError (lit "Error: command " ++ [dquote] ++ lit "dpkg" ++ [dquote] ++ lit " not found")
               (Some FileNotFoundError).

(** The diagnostic of line 212. *)
Definition denied_line (file_path : str) : str :=
  lit "Permission denied: " ++ in_quotes file_path.

(** ** Concrete hosts and runs *)

Definition default_libcxx_so : str := lit "/usr/lib/x86_64-linux-gnu/libc++.so.1".
Definition default_download_to : str := lit "/usr/local/share/gdb/libcxx".

Definition grep_line (v : str) : str :=
  lit "/usr/lib/llvm/cmake/LLVMConfig.cmake:set(LLVM_PACKAGE_VERSION " ++ v ++ lit ")".

Definition dpkg_line (v : str) : str :=
  lit "ii  libc++1-19:amd64  1:" ++ v ++ lit "~++20250101-1  amd64  LLVM C++ Standard library".

(** A host on which every string names an existing regular file that is its
    own real path, no Unicode table entry beyond ASCII matters, and the
    rest is as given. *)
Definition simple_host (exists_ writable : PurePath -> bool)
    (run : list str -> run_result) (net : option transport_failure) : Host :=
  {| os_path_exists := fun _ => true;
     os_path_isfile := fun _ => true;
     os_path_islink := fun _ => false;
     os_path_realpath := fun p => p;
     Path_exists := fun p => answer (exists_ p);
     os_access_W_OK := writable;
     Path_mkdir := fun _ => None;
     subprocess_run := run;
     urlopen_copy := fun _ _ => net;
     write_text := fun _ _ => None;
     unicode_Nd := fun _ => false;
     unicode_lower := fun c => [c];
     set_iteration := fun added => added |}.

(** grep finds one version line; dpkg answers with [dpkg]. *)
Definition run_with (grep_out : str) (dpkg : run_result) (args : list str) : run_result :=
  if bool_decide (hd [] args = lit "grep") then Completed grep_out else dpkg.

Definition one_version : str := grep_line (lit "19.0.0") ++ [newline].

Definition two_versions : str :=
  grep_line (lit "19.0.0") ++ [newline] ++ grep_line (lit "18.1.8") ++ [newline].

Definition no_version : str := lit "/usr/lib/notes.txt:LLVM_PACKAGE_VERSION is unset" ++ [newline].

Definition good_run : list str -> run_result :=
  run_with one_version (Completed (dpkg_line (lit "19.0.0") ++ [newline])).

(** Everything exists and is writable, the package database agrees with the
    library, the network answers. *)
Definition good_host : Host :=
  simple_host (fun _ => true) (fun _ => true) good_run None.

(** The same host without the package query tool. *)
Definition no_dpkg_host : Host :=
  simple_host (fun _ => true) (fun _ => true) (run_with one_version CommandNotFound) None.

Definition two_versions_host : Host :=
  simple_host (fun _ => true) (fun _ => true)
    (run_with two_versions (Completed [])) None.

Definition no_version_host : Host :=
  simple_host (fun _ => true) (fun _ => true)
    (run_with no_version (Completed [])) None.

(** The server stops answering while the response is read. *)
Definition timeout_host : Host :=
  simple_host (fun _ => true) (fun _ => true) good_run (Some TimeoutError).

(** Only the root directory exists, and it is read-only. *)
Definition readonly_root_host : Host :=
  simple_host (fun p => bool_decide (parts p = [])) (fun _ => false) good_run None.

(** Everything below the directory /locked answers the stat call with
    EACCES: the directory exists and may not be searched. *)
Definition unsearchable_host : Host :=
  {| os_path_exists := fun _ => true;
     os_path_isfile := fun _ => true;
     os_path_islink := fun _ => false;
     os_path_realpath := fun p => p;
     Path_exists := fun p =>
       match parts p with
       | first :: _ :: _ =>
           if bool_decide (first = lit "locked")
           then StatRaises (lit "[Errno 13] Permission denied")
           else Absent
       | _ => Present
       end;
     os_access_W_OK := fun _ => false;
     Path_mkdir := fun _ => None;
     subprocess_run := good_run;
     urlopen_copy := fun _ _ => None;
     write_text := fun _ _ => None;
     unicode_Nd := fun _ => false;
     unicode_lower := fun c => [c];
     set_iteration := fun added => added |}.

(** A host whose sets yield their elements in the reverse of the order in
    which they were added. *)
Definition reversing_host : Host :=
  {| os_path_exists := fun _ => true;
     os_path_isfile := fun _ => true;
     os_path_islink := fun _ => false;
     os_path_realpath := fun p => p;
     Path_exists := fun _ => Present;
     os_access_W_OK := fun _ => true;
     Path_mkdir := fun _ => None;
     subprocess_run := good_run;
     urlopen_copy := fun _ _ => None;
     write_text := fun _ _ => None;
     unicode_Nd := fun _ => false;
     unicode_lower := fun c => [c];
     set_iteration := fun added => rev added |}.

Definition override_args (t b c : option str) : Args :=
  {| args_tag := t; args_branch := b; args_commit := c;
     args_download_to := default_download_to; args_libcxx_so := default_libcxx_so |}.

Definition no_args : Args :=
  {| args_tag := None; args_branch := None; args_commit := None;
     args_download_to := default_download_to; args_libcxx_so := default_libcxx_so |}.

Definition tag_args (t : str) (dir : str) : Args :=
  {| args_tag := Some t; args_branch := None; args_commit := None;
     args_download_to := dir; args_libcxx_so := default_libcxx_so |}.

Definition all_args (t b c : str) : Args :=
  {| args_tag := Some t; args_branch := Some b; args_commit := Some c;
     args_download_to := default_download_to; args_libcxx_so := default_libcxx_so |}.

Definition branch_commit_args (b c : str) : Args :=
  {| args_tag := None; args_branch := Some b; args_commit := Some c;
     args_download_to := default_download_to; args_libcxx_so := default_libcxx_so |}.

Definition commit_args (c : str) : Args :=
  {| args_tag := None; args_branch := None; args_commit := Some c;
     args_download_to := default_download_to; args_libcxx_so := default_libcxx_so |}.

(** The destination of [tag_args t dir] on a host whose tables keep [t]
    as it is. *)
Definition scenario_a_dest : str := lit "/tmp/x/libcxx_printers_tag_llvmorg_18_1_0.py".

(** The destination file is already there and writable; its directory is
    read-only. *)
Definition rerun_host : Host :=
  simple_host (fun _ => true)
    (fun p => bool_decide (p = Path scenario_a_dest)) good_run None.

(** U+212A KELVIN SIGN *)
Definition kelvin : char := 0x212A.

(** A host without the library file, and one where the library path is a
    directory. *)
Definition missing_library_host : Host :=
  {| os_path_exists := fun _ => false;
     os_path_isfile := fun _ => false;
     os_path_islink := fun _ => false;
     os_path_realpath := fun p => p;
     Path_exists := fun _ => Present;
     os_access_W_OK := fun _ => true;
     Path_mkdir := fun _ => None;
     subprocess_run := good_run;
     urlopen_copy := fun _ _ => None;
     write_text := fun _ _ => None;
     unicode_Nd := fun _ => false;
     unicode_lower := fun c => [c];
     set_iteration := fun added => added |}.

Definition directory_library_host : Host :=
  {| os_path_exists := fun _ => true;
     os_path_isfile := fun _ => false;
     os_path_islink := fun _ => false;
     os_path_realpath := fun p => p;
     Path_exists := fun _ => Present;
     os_access_W_OK := fun _ => true;
     Path_mkdir := fun _ => None;
     subprocess_run := good_run;
     urlopen_copy := fun _ _ => None;
     write_text := fun _ _ => None;
     unicode_Nd := fun _ => false;
     unicode_lower := fun c => [c];
     set_iteration := fun added => added |}.

(** ** Vocabulary of the further properties *)

(** The transform of lines 189-191 as the class [[A-Za-z0-9_]] describes
    it: a character of the class stays, any other becomes an underscore. *)
Definition ascii_sanitize (s : str) : str :=
  map (fun c => if safe_char c then c else underscore) s.

(** A non-empty run of digits. *)
Definition is_number (h : Host) (s : str) : Prop :=
  s <> [] /\ Forall (fun c => is_digit h c = true) s.

(** The text each channel puts in front of the name in the file suffix;
    the derived channel files its version as a tag. *)
Definition channel_prefix (c : channel) : str :=
  match c with
  | ViaTag | ViaDerived => lit "tag_"
  | ViaBranch => lit "branch_"
  | ViaCommit => lit "commit_"
  end.

(** An ASCII digit or a dot: the characters of a version written in ASCII. *)
Definition is_version_char (c : char) : bool :=
  ((48 <=? c) && (c <=? 57)) || (c =? dot).

Definition grep_command (dir : PurePath) : list str :=
  [lit "grep"; lit "-r"; cmake_var; Path_str dir].

Definition grep_not_found : pyexn :=
  RuntimeError (lit "Error: command " ++ [dquote] ++ lit "grep" ++ [dquote] ++ lit " not found")
               (Some FileNotFoundError).

(** The lines of the output of dpkg that line 77 keeps. *)
Definition libcxx_lines (out : str) : list str :=
  filter (fun line => str_in (lit "  libc++") line = true) (splitlines out).

(** What a run does after [parse_args] when nothing fails (lines 210-220). *)
Definition install_events (plan : Plan) : list event :=
  [ Mkdir (parent (Path (dest_path (download_to plan) (file_name plan))));
    Urlopen (url plan) 10;
    Print (lit "Successfully downloaded: " ++ in_quotes (url plan));
    Print (lit "...and saved file to: "
           ++ in_quotes (dest_path (download_to plan) (file_name plan)));
    WriteText (auto_load_path (libcxx_so_path plan))
              (auto_load_file_contents (download_to plan) (file_name plan));
    Print (lit "Wrote GDB auto-load script to: "
           ++ in_quotes (auto_load_path (libcxx_so_path plan))) ].

(** Lines 205-220: what [main] does with the plan of [parse_args]. *)
Definition install (h : Host) (fuel : nat) (plan : Plan) : M unit :=
  let file_path := dest_path (download_to plan) (file_name plan) in
  ok <- download_file h fuel (url plan) file_path ;;
  if negb ok then
    print (lit "Permission denied: " ++ in_quotes file_path) ;;;
    raise (SystemExit 1)
  else
    print (lit "Successfully downloaded: " ++ in_quotes (url plan)) ;;;
    print (lit "...and saved file to: " ++ in_quotes file_path) ;;;
    let auto_load_file_path := auto_load_path (libcxx_so_path plan) in
    emit (WriteText auto_load_file_path
            (auto_load_file_contents (download_to plan) (file_name plan))) ;;;
    match write_text h auto_load_file_path
            (auto_load_file_contents (download_to plan) (file_name plan)) with
    | Some err => raise (OSError err)
    | None => print (lit "Wrote GDB auto-load script to: " ++ in_quotes auto_load_file_path)
    end.

(** The five things that must go well after [parse_args]. *)
Definition install_ok (h : Host) (fuel : nat) (plan : Plan) : Prop :=
  has_write_access h fuel (Path (dest_path (download_to plan) (file_name plan))) = Returns true
  /\ Path_mkdir h (parent (Path (dest_path (download_to plan) (file_name plan)))) = None
  /\ urlopen_copy h (url plan) (dest_path (download_to plan) (file_name plan)) = None
  /\ write_text h (auto_load_path (libcxx_so_path plan))
       (auto_load_file_contents (download_to plan) (file_name plan)) = None.

(** A computation that does not end in [SystemExit]. *)
Definition no_exit {A} (m : M A) : Prop := forall c, result m <> Raises (SystemExit c).

Definition is_write_text (ev : event) : bool :=
  match ev with WriteText _ _ => true | _ => false end.

(** A host on which everything exists and is writable, with the given
    answers of mkdir, of the sub-processes, of the network and of the write
    of the auto-load script. *)
Definition faulty_host (mkdir : option str) (run : list str -> run_result)
    (net : option transport_failure) (wr : option str) : Host :=
  {| os_path_exists := fun _ => true;
     os_path_isfile := fun _ => true;
     os_path_islink := fun _ => false;
     os_path_realpath := fun p => p;
     Path_exists := fun _ => Present;
     os_access_W_OK := fun _ => true;
     Path_mkdir := fun _ => mkdir;
     subprocess_run := run;
     urlopen_copy := fun _ _ => net;
     write_text := fun _ _ => wr;
     unicode_Nd := fun _ => false;
     unicode_lower := fun c => [c];
     set_iteration := fun added => added |}.

(** grep finds no line and exits with status 1. *)
Definition grep_fails_host : Host :=
  faulty_host None
    (fun args => if bool_decide (hd [] args = lit "grep") then NonZeroExit 1
                 else Completed []) None None.

(** grep itself is not installed. *)
Definition no_grep_host : Host :=
  faulty_host None
    (fun args => if bool_decide (hd [] args = lit "grep") then CommandNotFound
                 else Completed []) None None.

(** The package database knows another version than the library carries,
    and a package of another family with the library's version. *)
Definition mismatch_dpkg_output : str :=
  dpkg_line (lit "18.1.8") ++ [newline]
  ++ lit "ii  libcurl4:amd64  1:19.0.0~rc1  amd64  transfer library" ++ [newline].

Definition mismatch_host : Host :=
  faulty_host None (run_with one_version (Completed mismatch_dpkg_output)) None None.

Definition mkdir_fails_host : Host :=
  faulty_host (Some (lit "[Errno 20] Not a directory")) good_run None None.

Definition write_fails_host : Host :=
  faulty_host None good_run None (Some (lit "[Errno 13] Permission denied")).

(** ** Proof tools *)

(** Case analysis on membership in a list of lines that computes. *)
Ltac one_of_lines H :=
  vm_compute in H; apply list_elem_of_In in H; simpl in H;
  repeat (destruct H as [<-|H]); try contradiction.

(** ** The monad *)

Lemma bind_ret {A B} (a : A) (k : A -> M B) : bind (ret a) k = k a.
Proof. unfold bind, ret. destruct (k a) as [t r]. reflexivity. Qed.

Lemma bind_raise {A B} (e : pyexn) (k : A -> M B) : bind (raise e) k = raise e.
Proof. reflexivity. Qed.

Lemma result_bind_returns {A B} (m : M A) (k : A -> M B) (a : A) :
  result m = Returns a -> result (bind m k) = result (k a).
Proof.
  destruct m as [t r]. simpl. intros ->. unfold bind.
  destruct (k a) as [t' r']. reflexivity.
Qed.

Lemma result_bind_raises {A B} (m : M A) (k : A -> M B) (e : pyexn) :
  result m = Raises e -> result (bind m k) = Raises e.
Proof. destruct m as [t r]. simpl. intros ->. reflexivity. Qed.

Lemma events_bind_returns {A B} (m : M A) (k : A -> M B) (a : A) :
  result m = Returns a -> events (bind m k) = events m ++ events (k a).
Proof.
  destruct m as [t r]. simpl. intros ->. unfold bind.
  destruct (k a) as [t' r']. reflexivity.
Qed.

Lemma events_bind_raises {A B} (m : M A) (k : A -> M B) (e : pyexn) :
  result m = Raises e -> events (bind m k) = events m.
Proof. destruct m as [t r]. simpl. intros ->. reflexivity. Qed.

Lemma network_calls_app (t1 t2 : list event) :
  length (filter (fun ev => is_urlopen ev = true) (t1 ++ t2)) =
  (length (filter (fun ev => is_urlopen ev = true) t1) +
   length (filter (fun ev => is_urlopen ev = true) t2))%nat.
Proof. rewrite filter_app, length_app. reflexivity. Qed.

(** ** The model on concrete inputs *)

Example Path_drops_dots :
  Path_str (Path (lit "//opt/./gdb//libcxx/")) = lit "//opt/gdb/libcxx".
Proof. reflexivity. Qed.

Example parent_of_file :
  Path_str (parent (Path scenario_a_dest)) = lit "/tmp/x".
Proof. reflexivity. Qed.

Example parent_of_root : parent (Path (lit "/")) = Path (lit "/").
Proof. reflexivity. Qed.

Example parent_of_relative_name : Path_str (parent (Path (lit "printers.py"))) = lit ".".
Proof. reflexivity. Qed.

Example splitlines_crlf :
  splitlines (lit "one" ++ [13; 10] ++ lit "two" ++ [10; 10]) = [lit "one"; lit "two"; []].
Proof. reflexivity. Qed.

Example search_finds_version :
  re_search good_host marker_prefix marker_suffix (grep_line (lit "19.1.7")) = Some (lit "19.1.7").
Proof. reflexivity. Qed.

Example search_needs_three_numbers :
  re_search good_host marker_prefix marker_suffix (lit "set(LLVM_PACKAGE_VERSION 1.2)") = None
  /\ re_search good_host marker_prefix marker_suffix (lit "set(LLVM_PACKAGE_VERSION 1.2.3.4)")
     = None.
Proof. split; reflexivity. Qed.

Example search_is_leftmost :
  re_search good_host marker_prefix marker_suffix
    (lit "set(LLVM_PACKAGE_VERSION 1.2.3) set(LLVM_PACKAGE_VERSION 4.5.6)") = Some (lit "1.2.3").
Proof. reflexivity. Qed.

Example dpkg_line_version :
  re_search good_host (lit "1:") (lit "~") (dpkg_line (lit "19.1.7")) = Some (lit "19.1.7").
Proof. reflexivity. Qed.

Example good_run_output :
  stdout_lines (main good_host 8 no_args) =
  [ lit "Successfully downloaded: 'https://raw.githubusercontent.com/llvm/llvm-project/refs/tags/llvmorg-19.0.0/libcxx/utils/gdb/libcxx/printers.py'";
    lit "...and saved file to: '/usr/local/share/gdb/libcxx/libcxx_printers_tag_llvmorg_19_0_0.py'";
    lit "Wrote GDB auto-load script to: '/usr/share/gdb/auto-load/usr/lib/x86_64-linux-gnu/libc++.so.1-gdb.py'" ]
  /\ exit_status (main good_host 8 no_args) = Some 0%Z
  /\ network_calls (main good_host 8 no_args) = 1%nat.
Proof. vm_compute. done. Qed.

Example sanitize_branch_name (h : Host) :
  sanitize h (lit "branch_release/19.x") = lit "branch_release_19_x".
Proof. reflexivity. Qed.

(** ** Selection (lines 175-187) *)

Lemma truthy_drop_empty (o : option str) : truthy (drop_empty o) = truthy o.
Proof. destruct o as [[|c s]|]; reflexivity. Qed.

Lemma value_drop_empty (o : option str) : value (drop_empty o) = value o.
Proof. destruct o as [[|c s]|]; reflexivity. Qed.

Lemma truthy_value (o : option str) : truthy o = true -> value o <> [].
Proof. destruct o as [[|c s]|]; simpl; congruence. Qed.

Lemma select_without_empty (h : Host) (args : Args) :
  select h (without_empty args) = select h args.
Proof.
  unfold select, without_empty; simpl.
  rewrite !truthy_drop_empty, !value_drop_empty. reflexivity.
Qed.

Lemma select_variant (h : Host) (args : Args) :
  match result (select h args) with
  | Returns sel => variant sel = first_populated args
  | _ => first_populated args = ViaDerived
  end.
Proof.
  unfold select, first_populated.
  destruct (truthy (args_tag args)); [reflexivity|].
  destruct (truthy (args_branch args)); [reflexivity|].
  destruct (truthy (args_commit args)); [reflexivity|].
  destruct (find_libcxx_version h (args_libcxx_so args)) as [t [v|e|]]; reflexivity.
Qed.

Lemma select_tag (h : Host) (args : Args) (t : str) :
  args_tag args = Some t -> t <> [] ->
  select h args =
  ret {| variant := ViaTag;
         url_middle := lit "refs/tags/" ++ t;
         file_suffix := lit "tag_" ++ t |}.
Proof.
  intros Ht Hne. unfold select. rewrite Ht.
  destruct t as [|c t]; [congruence|]. reflexivity.
Qed.

Lemma select_branch (h : Host) (args : Args) (b : str) :
  truthy (args_tag args) = false ->
  args_branch args = Some b -> b <> [] ->
  select h args =
  ret {| variant := ViaBranch;
         url_middle := lit "refs/heads/" ++ b;
         file_suffix := lit "branch_" ++ b |}.
Proof.
  intros Ht Hb Hne. unfold select. rewrite Ht, Hb.
  destruct b as [|c b]; [congruence|]. reflexivity.
Qed.

Lemma select_commit (h : Host) (args : Args) (c : str) :
  truthy (args_tag args) = false ->
  truthy (args_branch args) = false ->
  args_commit args = Some c -> c <> [] ->
  select h args =
  ret {| variant := ViaCommit;
         url_middle := c;
         file_suffix := lit "commit_" ++ take 11 c |}.
Proof.
  intros Ht Hb Hc Hne. unfold select. rewrite Ht, Hb, Hc.
  destruct c as [|x c]; [congruence|]. reflexivity.
Qed.

Lemma select_derived (h : Host) (args : Args) :
  first_populated args = ViaDerived ->
  select h args =
  (version <- find_libcxx_version h (args_libcxx_so args) ;; ret (derived_selector version)).
Proof.
  unfold first_populated, select.
  destruct (truthy (args_tag args)); [discriminate|].
  destruct (truthy (args_branch args)); [discriminate|].
  destruct (truthy (args_commit args)); [discriminate|].
  reflexivity.
Qed.

(** C2. The precedence tag, branch, commit, derived is total and the first
    populated channel wins: a call of [select] ends in one selector, whose
    variant is the first populated channel, or fails on the derived channel;
    a populated tag gives the tag variant and nothing else whatever the other
    channels hold; without a tag, a populated branch gives the branch variant
    whatever the commit holds; with the commit alone the suffix fragment is
    commit_ followed by the first 11 characters of the commit. *)
Theorem selector_precedence :
  (forall h args,
      match result (select h args) with
      | Returns sel => variant sel = first_populated args
      | _ => first_populated args = ViaDerived
      end)
  /\ (forall h args t,
         args_tag args = Some t -> t <> [] ->
         select h args =
         ret {| variant := ViaTag;
                url_middle := lit "refs/tags/" ++ t;
                file_suffix := lit "tag_" ++ t |})
  /\ (forall h args b,
         truthy (args_tag args) = false ->
         args_branch args = Some b -> b <> [] ->
         select h args =
         ret {| variant := ViaBranch;
                url_middle := lit "refs/heads/" ++ b;
                file_suffix := lit "branch_" ++ b |})
  /\ (forall h args c,
         truthy (args_tag args) = false ->
         truthy (args_branch args) = false ->
         args_commit args = Some c -> c <> [] ->
         select h args =
         ret {| variant := ViaCommit;
                url_middle := c;
                file_suffix := lit "commit_" ++ take 11 c |}
         /\ take 11 c `prefix_of` c
         /\ length (take 11 c) = Nat.min 11 (length c)).
Proof.
  split; [exact select_variant|].
  split; [exact select_tag|].
  split; [exact select_branch|].
  intros h args c Ht Hb Hc Hne. split; [by apply select_commit|].
  split.
  - exists (drop 11 c). symmetry. apply take_drop.
  - apply length_take.
Qed.

Lemma selector_precedence_witness :
  select good_host (all_args (lit "llvmorg-18.1.0") (lit "main") (lit "0123456789abcdef")) =
    ret {| variant := ViaTag;
           url_middle := lit "refs/tags/llvmorg-18.1.0";
           file_suffix := lit "tag_llvmorg-18.1.0" |}
  /\ select good_host (branch_commit_args (lit "main") (lit "0123456789abcdef")) =
    ret {| variant := ViaBranch;
           url_middle := lit "refs/heads/main";
           file_suffix := lit "branch_main" |}
  /\ select good_host (commit_args (lit "0123456789abcdef")) =
    ret {| variant := ViaCommit;
           url_middle := lit "0123456789abcdef";
           file_suffix := lit "commit_0123456789a" |}.
Proof.
  destruct selector_precedence as (_ & Htag & Hbranch & Hcommit).
  split; [|split].
  - apply (Htag good_host (all_args _ _ _) _ eq_refl). discriminate.
  - apply (Hbranch good_host (branch_commit_args _ _) _ eq_refl eq_refl). discriminate.
  - refine (proj1 (Hcommit good_host (commit_args _) _ eq_refl eq_refl eq_refl _)).
    discriminate.
Defined.

Lemma truthy_empty (o : option str) : o = Some [] -> truthy o = false.
Proof. by intros ->. Qed.

Lemma first_populated_derived (args : Args) :
  truthy (args_tag args) = false ->
  truthy (args_branch args) = false ->
  truthy (args_commit args) = false ->
  first_populated args = ViaDerived.
Proof. unfold first_populated. by intros -> -> ->. Qed.

(** C10. An override given as the empty string is treated as absent and
    selection falls through to the next channel. With the tag empty, a
    branch gives the branch selector; with the tag empty or absent and the
    branch empty, a commit gives the commit selector; with the commit empty
    too, or no commit, selection goes to the derived channel and returns the
    selector of the version found there. In general selection does what it
    does with the empty overrides left out, and no returned selector
    carries an empty name. *)
Theorem empty_override_is_absent :
  (forall h args b,
      args_tag args = Some [] ->
      args_branch args = Some b -> b <> [] ->
      select h args =
      ret {| variant := ViaBranch;
             url_middle := lit "refs/heads/" ++ b;
             file_suffix := lit "branch_" ++ b |})
  /\ (forall h args c,
         args_tag args = Some [] \/ args_branch args = Some [] ->
         truthy (args_tag args) = false ->
         truthy (args_branch args) = false ->
         args_commit args = Some c -> c <> [] ->
         select h args =
         ret {| variant := ViaCommit;
                url_middle := c;
                file_suffix := lit "commit_" ++ take 11 c |})
  /\ (forall h args,
         args_tag args = Some [] \/ args_branch args = Some [] \/ args_commit args = Some [] ->
         truthy (args_tag args) = false ->
         truthy (args_branch args) = false ->
         truthy (args_commit args) = false ->
         select h args =
           (version <- find_libcxx_version h (args_libcxx_so args) ;;
            ret (derived_selector version))
         /\ forall v, result (find_libcxx_version h (args_libcxx_so args)) = Returns v ->
                      result (select h args) = Returns (derived_selector v))
  /\ (forall h args, select h args = select h (without_empty args))
  /\ (forall args, first_populated args = first_populated (without_empty args))
  /\ (forall h args sel,
         result (select h args) = Returns sel ->
         match variant sel with
         | ViaTag =>
             exists t, t <> [] /\ args_tag args = Some t
                       /\ url_middle sel = lit "refs/tags/" ++ t
         | ViaBranch =>
             exists b, b <> [] /\ args_branch args = Some b
                       /\ url_middle sel = lit "refs/heads/" ++ b
         | ViaCommit =>
             exists c, c <> [] /\ args_commit args = Some c /\ url_middle sel = c
         | ViaDerived =>
             truthy (args_tag args) = false /\ truthy (args_branch args) = false
             /\ truthy (args_commit args) = false
         end).
Proof.
  split.
  { intros h args b Ht Hb Hne. apply select_branch; [by apply truthy_empty|done..]. }
  split.
  { intros h args c _ Ht Hb Hc Hne. by apply select_commit. }
  split.
  { intros h args _ Ht Hb Hc.
    rewrite (select_derived h args (first_populated_derived args Ht Hb Hc)).
    split; [reflexivity|]. intros v Hv. by rewrite (result_bind_returns _ _ v Hv). }
  split; [intros; symmetry; apply select_without_empty|].
  split.
  { intros args. unfold first_populated, without_empty; simpl.
    by rewrite !truthy_drop_empty. }
  intros h args sel. unfold select.
  destruct (args_tag args) as [[|x t]|] eqn:Ht; simpl.
  2:{ intros [= <-]; simpl. exists (x :: t). done. }
  all: destruct (args_branch args) as [[|y b]|] eqn:Hb; simpl.
  all: try (intros [= <-]; simpl; exists (y :: b); done).
  all: destruct (args_commit args) as [[|z c]|] eqn:Hc; simpl.
  all: try (intros [= <-]; simpl; exists (z :: c); done).
  all: destruct (find_libcxx_version h (args_libcxx_so args)) as [tr [v|e|]];
    simpl; intros [= <-]; done.
Qed.

Lemma empty_override_is_absent_witness :
  select good_host (override_args (Some []) (Some (lit "main")) (Some (lit "0123456789abcdef")))
  = ret {| variant := ViaBranch;
           url_middle := lit "refs/heads/main";
           file_suffix := lit "branch_main" |}
  /\ select good_host (override_args None (Some []) (Some (lit "0123456789abcdef")))
     = ret {| variant := ViaCommit;
              url_middle := lit "0123456789abcdef";
              file_suffix := lit "commit_0123456789a" |}
  /\ result (select good_host (override_args (Some []) (Some []) (Some [])))
     = Returns (derived_selector (lit "19.0.0")).
Proof.
  destruct empty_override_is_absent as (Hbranch & Hcommit & Hderived & _).
  split; [|split].
  - apply (Hbranch good_host
             (override_args (Some []) (Some (lit "main")) (Some (lit "0123456789abcdef")))
             (lit "main") eq_refl eq_refl).
    discriminate.
  - apply (Hcommit good_host
             (override_args None (Some []) (Some (lit "0123456789abcdef")))
             (lit "0123456789abcdef") (or_intror eq_refl) eq_refl eq_refl eq_refl).
    discriminate.
  - apply (proj2 (Hderived good_host (override_args (Some []) (Some []) (Some []))
                    (or_introl eq_refl) eq_refl eq_refl eq_refl)).
    vm_compute. reflexivity.
Defined.

(** ** The source-library path (lines 15-20, 197) *)

Lemma find_real_path_missing (h : Host) (path : str) :
  os_path_exists h path = false ->
  find_real_path h path = raise (RuntimeError (lit "File does not exist: " ++ path) None).
Proof. intros H. unfold find_real_path. rewrite H. reflexivity. Qed.

Lemma find_real_path_irregular (h : Host) (path : str) :
  os_path_exists h path = true ->
  os_path_isfile h path = false ->
  os_path_islink h path = false ->
  find_real_path h path =
  raise (RuntimeError (lit "Path is not a real file or a link: " ++ path) None).
Proof. intros H1 H2 H3. unfold find_real_path. rewrite H1, H2, H3. reflexivity. Qed.

Lemma find_real_path_ok (h : Host) (path : str) :
  os_path_exists h path = true ->
  os_path_isfile h path || os_path_islink h path = true ->
  find_real_path h path = ret (os_path_realpath h path).
Proof.
  intros H1 H2. unfold find_real_path. rewrite H1.
  destruct (os_path_isfile h path), (os_path_islink h path); try discriminate; reflexivity.
Qed.

(** A library path that does not resolve stops [parse_args] before
    anything else has happened, on every channel. *)
Lemma parse_args_bad_path (h : Host) (args : Args) (e : pyexn) :
  find_real_path h (args_libcxx_so args) = raise e ->
  parse_args h args = raise e.
Proof.
  intros H. unfold parse_args, select.
  destruct (truthy (args_tag args)); [rewrite bind_ret, H; reflexivity|].
  destruct (truthy (args_branch args)); [rewrite bind_ret, H; reflexivity|].
  destruct (truthy (args_commit args)); [rewrite bind_ret, H; reflexivity|].
  unfold find_libcxx_version, find_libcxx_so_version. rewrite H. reflexivity.
Qed.

Lemma main_bad_path (h : Host) (fuel : nat) (args : Args) (e : pyexn) :
  find_real_path h (args_libcxx_so args) = raise e ->
  main h fuel args = raise e.
Proof. intros H. unfold main. rewrite (parse_args_bad_path _ _ _ H). reflexivity. Qed.

(** C9. On every run, also when a tag, branch or commit override makes the
    version evidence unnecessary, the source-library path is resolved before
    any fetch: if it does not exist the run fails with the error of a
    missing file, if it exists but is neither a regular file nor a link it
    fails with the error of an irregular path, and no network call is
    made. *)
Theorem library_path_always_resolved (h : Host) (fuel : nat) (args : Args) :
  (os_path_exists h (args_libcxx_so args) = false ->
   result (main h fuel args) =
     Raises (RuntimeError (lit "File does not exist: " ++ args_libcxx_so args) None)
   /\ network_calls (main h fuel args) = 0%nat
   /\ exit_status (main h fuel args) = Some 1%Z)
  /\ (os_path_exists h (args_libcxx_so args) = true ->
      os_path_isfile h (args_libcxx_so args) = false ->
      os_path_islink h (args_libcxx_so args) = false ->
      result (main h fuel args) =
        Raises (RuntimeError
                  (lit "Path is not a real file or a link: " ++ args_libcxx_so args) None)
      /\ network_calls (main h fuel args) = 0%nat
      /\ exit_status (main h fuel args) = Some 1%Z).
Proof.
  split.
  - intros H. rewrite (main_bad_path _ _ _ _ (find_real_path_missing _ _ H)). done.
  - intros H1 H2 H3.
    rewrite (main_bad_path _ _ _ _ (find_real_path_irregular _ _ H1 H2 H3)). done.
Qed.

Lemma library_path_always_resolved_witness :
  (result (main missing_library_host 8 (tag_args (lit "llvmorg-18.1.0") (lit "/tmp/x"))) =
     Raises (RuntimeError (lit "File does not exist: " ++ default_libcxx_so) None)
   /\ network_calls (main missing_library_host 8 (tag_args (lit "llvmorg-18.1.0") (lit "/tmp/x")))
      = 0%nat
   /\ exit_status (main missing_library_host 8 (tag_args (lit "llvmorg-18.1.0") (lit "/tmp/x")))
      = Some 1%Z)
  /\ (result (main directory_library_host 8 (commit_args (lit "0123456789abcdef"))) =
        Raises (RuntimeError
                  (lit "Path is not a real file or a link: " ++ default_libcxx_so) None)
      /\ network_calls (main directory_library_host 8 (commit_args (lit "0123456789abcdef")))
         = 0%nat
      /\ exit_status (main directory_library_host 8 (commit_args (lit "0123456789abcdef")))
         = Some 1%Z).
Proof.
  split.
  - exact (proj1 (library_path_always_resolved missing_library_host 8
                    (tag_args (lit "llvmorg-18.1.0") (lit "/tmp/x"))) eq_refl).
  - exact (proj2 (library_path_always_resolved directory_library_host 8
                    (commit_args (lit "0123456789abcdef"))) eq_refl eq_refl eq_refl).
Defined.

(** ** Scenario A (lines 175-198, 210) *)

(** C6. With the tag override llvmorg-18.1.0 and the download directory
    /tmp/x: the remote fragment is refs/tags/llvmorg-18.1.0, the local file
    name is libcxx_printers_tag_llvmorg_18_1_0.py under /tmp/x, and on a
    host where the library path resolves the plan carries the base URL, that
    fragment and the path of the printers resource. *)
Theorem scenario_a (h : Host) (args : Args) :
  args_tag args = Some (lit "llvmorg-18.1.0") ->
  args_download_to args = lit "/tmp/x" ->
  select h args =
    ret {| variant := ViaTag;
           url_middle := lit "refs/tags/llvmorg-18.1.0";
           file_suffix := lit "tag_llvmorg-18.1.0" |}
  /\ lit "libcxx_printers_" ++ sanitize h (lit "tag_llvmorg-18.1.0") =
     lit "libcxx_printers_tag_llvmorg_18_1_0"
  /\ dest_path (args_download_to args) (lit "libcxx_printers_tag_llvmorg_18_1_0") =
     lit "/tmp/x/libcxx_printers_tag_llvmorg_18_1_0.py"
  /\ (os_path_exists h (args_libcxx_so args) = true ->
      os_path_isfile h (args_libcxx_so args) || os_path_islink h (args_libcxx_so args) = true ->
      parse_args h args =
        ret {| url := lit "https://raw.githubusercontent.com/llvm/llvm-project/refs/tags/llvmorg-18.1.0/libcxx/utils/gdb/libcxx/printers.py";
               file_name := lit "libcxx_printers_tag_llvmorg_18_1_0";
               download_to := lit "/tmp/x";
               libcxx_so_path := os_path_realpath h (args_libcxx_so args) |}).
Proof.
  intros Ht Hd.
  assert (Hs : select h args =
    ret {| variant := ViaTag;
           url_middle := lit "refs/tags/llvmorg-18.1.0";
           file_suffix := lit "tag_llvmorg-18.1.0" |}).
  { rewrite (select_tag h args _ Ht); [reflexivity|discriminate]. }
  split; [exact Hs|]. split; [reflexivity|]. split; [rewrite Hd; reflexivity|].
  intros He Hf.
  unfold parse_args. rewrite Hs, bind_ret, (find_real_path_ok _ _ He Hf), bind_ret, Hd.
  reflexivity.
Qed.

Lemma scenario_a_witness :
  parse_args good_host (tag_args (lit "llvmorg-18.1.0") (lit "/tmp/x")) =
    ret {| url := lit "https://raw.githubusercontent.com/llvm/llvm-project/refs/tags/llvmorg-18.1.0/libcxx/utils/gdb/libcxx/printers.py";
           file_name := lit "libcxx_printers_tag_llvmorg_18_1_0";
           download_to := lit "/tmp/x";
           libcxx_so_path := default_libcxx_so |}.
Proof.
  exact (proj2 (proj2 (proj2 (scenario_a good_host
                                (tag_args (lit "llvmorg-18.1.0") (lit "/tmp/x"))
                                eq_refl eq_refl))) eq_refl eq_refl).
Defined.

(** ** Version evidence (lines 63-71, 80-91) *)

Lemma elem_of_version_fold (h : Host) (p s : str) (lines : list str) (acc : gset str) (v : str) :
  v ∈ foldl (fun versions line =>
               match re_search h p s line with
               | Some v => versions ∪ {[ v ]}
               | None => versions
               end) acc lines
  <-> v ∈ acc \/ exists line, line ∈ lines /\ re_search h p s line = Some v.
Proof.
  revert acc. induction lines as [|l lines IH]; intros acc; simpl.
  - split; [auto|]. intros [H|(line & Hin & _)]; [done|]. by apply elem_of_nil in Hin.
  - rewrite IH. split.
    + intros [H|(line & Hin & Hm)].
      * destruct (re_search h p s l) as [w|] eqn:Hl; [|auto].
        apply elem_of_union in H as [H|H]; [auto|].
        apply elem_of_singleton in H as ->. right. exists l. split; [left|done].
      * right. exists line. split; [by right|done].
    + intros [H|(line & Hin & Hm)].
      * left. destruct (re_search h p s l); [apply elem_of_union; by left|done].
      * apply elem_of_cons in Hin as [->|Hin].
        -- left. rewrite Hm. apply elem_of_union. right. by apply elem_of_singleton.
        -- right. eauto.
Qed.

Lemma elem_of_version_set (h : Host) (lines : list str) (p s v : str) :
  v ∈ version_set h lines p s
  <-> exists line, line ∈ lines /\ re_search h p s line = Some v.
Proof.
  unfold version_set. rewrite elem_of_version_fold. split; [|auto].
  intros [H|H]; [set_solver|done].
Qed.

(** Whatever order the host's sets have, the list holds the elements of
    the set, each once. *)
Lemma list_of_set_ordering (h : Host) (added : list str) (versions : gset str) :
  list_of_set h added versions ≡ₚ elements versions.
Proof. unfold list_of_set. by destruct (decide _). Qed.

Lemma elem_of_extract_version_numbers (h : Host) (lines : list str) (p s v : str) :
  v ∈ extract_version_numbers h lines p s
  <-> exists line, line ∈ lines /\ re_search h p s line = Some v.
Proof.
  unfold extract_version_numbers.
  by rewrite list_of_set_ordering, elem_of_elements, elem_of_version_set.
Qed.

Lemma NoDup_extract_version_numbers (h : Host) (lines : list str) (p s : str) :
  NoDup (extract_version_numbers h lines p s).
Proof. unfold extract_version_numbers. rewrite list_of_set_ordering. apply NoDup_elements. Qed.

Lemma startswith_app (x b : str) : startswith x (x ++ b) = true.
Proof. induction x as [|c x IH]; [by destruct b|]. simpl. by rewrite N.eqb_refl. Qed.

Lemma str_in_app (x a b : str) : str_in x (a ++ x ++ b) = true.
Proof.
  induction a as [|c a IH]; simpl.
  - destruct x as [|c x]; [by destruct b|]. simpl.
    by rewrite N.eqb_refl, startswith_app.
  - rewrite IH. apply orb_true_r.
Qed.

Lemma join_elem (sep : str) (l : list str) (v : str) :
  v ∈ l -> exists a b, join sep l = a ++ v ++ b.
Proof.
  induction l as [|x l IH]; [by intros ?%elem_of_nil|].
  intros [->|Hin]%elem_of_cons.
  - destruct l as [|y l]; simpl.
    + exists [], []. by rewrite app_nil_r.
    + exists [], (sep ++ join sep (y :: l)). reflexivity.
  - destruct (IH Hin) as (a & b & Hj). destruct l as [|y l]; [by apply elem_of_nil in Hin|].
    exists (x ++ sep ++ a), b. change (join sep (x :: y :: l)) with (x ++ sep ++ join sep (y :: l)).
    rewrite Hj. by rewrite <- !app_assoc.
Qed.

Lemma no_version_message_names (dir : PurePath) :
  str_in cmake_var (no_version_message dir) = true
  /\ str_in (Path_str dir) (no_version_message dir) = true.
Proof.
  unfold no_version_message. split.
  - apply (str_in_app cmake_var (lit "Unable to find " ++ [dquote])).
  - rewrite <- (app_nil_r (Path_str dir)) at 2.
    rewrite !app_assoc. rewrite <- (app_assoc _ (Path_str dir) []).
    apply str_in_app.
Qed.

Lemma ambiguous_message_lists (l : list str) (v : str) :
  v ∈ l -> str_in v (ambiguous_message l) = true.
Proof.
  intros Hin. destruct (join_elem (lit ", ") l v Hin) as (a & b & Hj).
  unfold ambiguous_message. rewrite Hj. rewrite !app_assoc.
  rewrite <- (app_assoc _ v b). apply str_in_app.
Qed.

Section Evidence.
Variables (h : Host) (libcxx_so_path real out : str).

Hypothesis Hreal : find_real_path h libcxx_so_path = ret real.
Hypothesis Hgrep :
  subprocess_run h [lit "grep"; lit "-r"; cmake_var; Path_str (parent (Path real))]
  = Completed out.

Lemma find_libcxx_so_version_unfold :
  result (find_libcxx_so_version h libcxx_so_path) =
  match extract_version_numbers h (splitlines out) marker_prefix marker_suffix with
  | [] => Raises (RuntimeError (no_version_message (parent (Path real))) None)
  | [v] => Returns v
  | versions => Raises (RuntimeError (ambiguous_message versions) None)
  end.
Proof.
  unfold find_libcxx_so_version. rewrite Hreal, bind_ret.
  unfold run_command. rewrite Hgrep.
  rewrite (result_bind_returns _ _ out) by reflexivity.
  change (lit "set(" ++ cmake_var ++ lit " ") with marker_prefix.
  change (lit ")") with marker_suffix.
  destruct (extract_version_numbers h (splitlines out) marker_prefix marker_suffix) as [|a [|b l]];
    reflexivity.
Qed.

Lemma one_version_returned (v : str) :
  (exists line, line ∈ splitlines out /\ re_search h marker_prefix marker_suffix line = Some v) ->
  (forall line v', line ∈ splitlines out ->
                   re_search h marker_prefix marker_suffix line = Some v' -> v' = v) ->
  result (find_libcxx_so_version h libcxx_so_path) = Returns v.
Proof.
  intros Hex Huniq. rewrite find_libcxx_so_version_unfold.
  pose proof (NoDup_extract_version_numbers h (splitlines out) marker_prefix marker_suffix) as Hnd.
  pose proof (elem_of_extract_version_numbers h (splitlines out) marker_prefix marker_suffix) as Hel.
  destruct (extract_version_numbers h (splitlines out) marker_prefix marker_suffix) as [|a [|b l]].
  - apply Hel in Hex. by apply elem_of_nil in Hex.
  - apply Hel in Hex. by apply list_elem_of_singleton in Hex as ->.
  - assert (Ha : a = v).
    { destruct (proj1 (Hel a)) as (line & Hin & Hm); [left|]. eauto. }
    assert (Hb : b = v).
    { destruct (proj1 (Hel b)) as (line & Hin & Hm); [right; left|]. eauto. }
    subst. apply NoDup_cons in Hnd as [Hnotin _]. exfalso. apply Hnotin. left.
Qed.

Lemma no_version_fails :
  (forall line, line ∈ splitlines out -> re_search h marker_prefix marker_suffix line = None) ->
  result (find_libcxx_so_version h libcxx_so_path) =
  Raises (RuntimeError (no_version_message (parent (Path real))) None).
Proof.
  intros Hnone. rewrite find_libcxx_so_version_unfold.
  pose proof (elem_of_extract_version_numbers h (splitlines out) marker_prefix marker_suffix) as Hel.
  destruct (extract_version_numbers h (splitlines out) marker_prefix marker_suffix) as [|a l];
    [reflexivity|].
  destruct (proj1 (Hel a)) as (line & Hin & Hm); [left|].
  rewrite (Hnone line Hin) in Hm. discriminate.
Qed.

Lemma several_versions_fail (v1 v2 : str) :
  v1 <> v2 ->
  (exists line, line ∈ splitlines out /\ re_search h marker_prefix marker_suffix line = Some v1) ->
  (exists line, line ∈ splitlines out /\ re_search h marker_prefix marker_suffix line = Some v2) ->
  exists candidates,
    result (find_libcxx_so_version h libcxx_so_path) =
      Raises (RuntimeError (ambiguous_message candidates) None)
    /\ NoDup candidates
    /\ (forall v, v ∈ candidates <->
                  exists line, line ∈ splitlines out
                               /\ re_search h marker_prefix marker_suffix line = Some v).
Proof.
  intros Hne H1 H2. rewrite find_libcxx_so_version_unfold.
  pose proof (NoDup_extract_version_numbers h (splitlines out) marker_prefix marker_suffix) as Hnd.
  pose proof (elem_of_extract_version_numbers h (splitlines out) marker_prefix marker_suffix) as Hel.
  apply Hel in H1. apply Hel in H2.
  destruct (extract_version_numbers h (splitlines out) marker_prefix marker_suffix) as [|a [|b l]].
  - by apply elem_of_nil in H1.
  - apply list_elem_of_singleton in H1, H2. congruence.
  - exists (a :: b :: l). done.
Qed.
End Evidence.

(** When the scan of the library directory completes (grep exits with
    status 0), whatever lines it returns:
    if the lines that match the marker pattern all carry one and the same
    version, [find_libcxx_so_version] returns it; if no line matches, it
    fails with the error that names the marker and the scanned directory; if
    two lines carry different versions, it fails with the error that lists
    every distinct candidate, each once. No candidate is picked. *)
Theorem version_evidence_policy (h : Host) (libcxx_so_path real out : str) :
  find_real_path h libcxx_so_path = ret real ->
  subprocess_run h [lit "grep"; lit "-r"; cmake_var; Path_str (parent (Path real))]
    = Completed out ->
  (forall v,
      (exists line, line ∈ splitlines out
                    /\ re_search h marker_prefix marker_suffix line = Some v) ->
      (forall line v', line ∈ splitlines out ->
                       re_search h marker_prefix marker_suffix line = Some v' -> v' = v) ->
      result (find_libcxx_so_version h libcxx_so_path) = Returns v)
  /\ ((forall line, line ∈ splitlines out ->
                    re_search h marker_prefix marker_suffix line = None) ->
      result (find_libcxx_so_version h libcxx_so_path) =
        Raises (RuntimeError (no_version_message (parent (Path real))) None)
      /\ str_in cmake_var (no_version_message (parent (Path real))) = true
      /\ str_in (Path_str (parent (Path real))) (no_version_message (parent (Path real)))
         = true)
  /\ (forall v1 v2,
         v1 <> v2 ->
         (exists line, line ∈ splitlines out
                       /\ re_search h marker_prefix marker_suffix line = Some v1) ->
         (exists line, line ∈ splitlines out
                       /\ re_search h marker_prefix marker_suffix line = Some v2) ->
         exists candidates,
           result (find_libcxx_so_version h libcxx_so_path) =
             Raises (RuntimeError (ambiguous_message candidates) None)
           /\ NoDup candidates
           /\ (forall v, v ∈ candidates <->
                         exists line, line ∈ splitlines out
                                      /\ re_search h marker_prefix marker_suffix line = Some v)
           /\ (forall v, v ∈ candidates -> str_in v (ambiguous_message candidates) = true)).
Proof.
  intros Hreal Hgrep. split; [|split].
  - intros v. by apply one_version_returned with (real := real).
  - intros Hnone. split; [by apply no_version_fails with (out := out)|].
    apply no_version_message_names.
  - intros v1 v2 Hne H1 H2.
    destruct (several_versions_fail h libcxx_so_path real out Hreal Hgrep v1 v2 Hne H1 H2)
      as (candidates & Hres & Hnd & Hel).
    exists candidates. split; [done|]. split; [done|]. split; [done|].
    intros v. apply ambiguous_message_lists.
Qed.

Lemma version_evidence_policy_witness :
  result (find_libcxx_so_version good_host default_libcxx_so) = Returns (lit "19.0.0")
  /\ result (find_libcxx_so_version no_version_host default_libcxx_so) =
       Raises (RuntimeError (no_version_message (parent (Path default_libcxx_so))) None)
  /\ exists candidates,
       result (find_libcxx_so_version two_versions_host default_libcxx_so) =
         Raises (RuntimeError (ambiguous_message candidates) None)
       /\ lit "19.0.0" ∈ candidates /\ lit "18.1.8" ∈ candidates.
Proof.
  split; [|split].
  - apply (proj1 (version_evidence_policy good_host default_libcxx_so default_libcxx_so
                    one_version eq_refl eq_refl)).
    + exists (grep_line (lit "19.0.0")). split; [vm_compute; constructor|reflexivity].
    + intros line v' Hin Hm. one_of_lines Hin.
      vm_compute in Hm. injection Hm as <-. reflexivity.
  - apply (proj1 (proj2 (version_evidence_policy no_version_host default_libcxx_so
                           default_libcxx_so no_version eq_refl eq_refl))).
    intros line Hin. one_of_lines Hin. reflexivity.
  - destruct (proj2 (proj2 (version_evidence_policy two_versions_host default_libcxx_so
                              default_libcxx_so two_versions eq_refl eq_refl))
                (lit "19.0.0") (lit "18.1.8")) as (candidates & Hres & _ & Hel & _).
    + discriminate.
    + exists (grep_line (lit "19.0.0")). split; [vm_compute; constructor|reflexivity].
    + exists (grep_line (lit "18.1.8")).
      split; [vm_compute; constructor; constructor|reflexivity].
    + exists candidates. split; [exact Hres|]. split; apply Hel.
      * exists (grep_line (lit "19.0.0")). split; [vm_compute; constructor|reflexivity].
      * exists (grep_line (lit "18.1.8")).
        split; [vm_compute; constructor; constructor|reflexivity].
Defined.

(** C4 at the run without evidence. When the scan exits with a non-zero
    status, as grep does with status 1 when no line of the directory holds
    the marker, [check=True] raises before line 84: the extraction ends in
    the CalledProcessError of the command and never reaches the test of
    line 86, so it neither raises the error of line 87 that names the marker
    and the scanned directory nor returns a version. *)
Theorem no_evidence_run_skips_the_handler (h : Host) (libcxx_so_path real : str) (code : Z) :
  find_real_path h libcxx_so_path = ret real ->
  subprocess_run h (grep_command (parent (Path real))) = NonZeroExit code ->
  find_libcxx_so_version h libcxx_so_path =
    ([Run (grep_command (parent (Path real)))],
     Raises (CalledProcessError (grep_command (parent (Path real))) code))
  /\ result (find_libcxx_so_version h libcxx_so_path) <>
     Raises (RuntimeError (no_version_message (parent (Path real))) None)
  /\ (forall v, result (find_libcxx_so_version h libcxx_so_path) <> Returns v).
Proof.
  intros Hreal Hrun.
  assert (Hfind : find_libcxx_so_version h libcxx_so_path =
                  ([Run (grep_command (parent (Path real)))],
                   Raises (CalledProcessError (grep_command (parent (Path real))) code))).
  { unfold find_libcxx_so_version. rewrite Hreal, bind_ret. unfold run_command.
    change [lit "grep"; lit "-r"; cmake_var; Path_str (parent (Path real))]
      with (grep_command (parent (Path real))).
    rewrite Hrun. reflexivity. }
  rewrite Hfind. split; [reflexivity|]. split; [discriminate|]. intros v. discriminate.
Qed.

Lemma no_evidence_run_skips_the_handler_witness :
  find_libcxx_so_version grep_fails_host default_libcxx_so =
    ([Run (grep_command (parent (Path default_libcxx_so)))],
     Raises (CalledProcessError (grep_command (parent (Path default_libcxx_so))) 1)).
Proof.
  exact (proj1 (no_evidence_run_skips_the_handler grep_fails_host default_libcxx_so
                  default_libcxx_so 1%Z eq_refl eq_refl)).
Defined.

(** ** The package cross-check (lines 73-78, 93-97) *)

Lemma find_installed_not_found (h : Host) :
  subprocess_run h dpkg_command = CommandNotFound ->
  result (find_installed_libcxx_package_versions h) = Raises dpkg_not_found.
Proof.
  intros H. unfold find_installed_libcxx_package_versions, run_command.
  change [lit "dpkg"; lit "-l"] with dpkg_command. rewrite H. reflexivity.
Qed.

Lemma find_installed_completed (h : Host) (out : str) :
  subprocess_run h dpkg_command = Completed out ->
  result (find_installed_libcxx_package_versions h) =
  Returns (extract_version_numbers h
             (filter (fun line => str_in (lit "  libc++") line = true) (splitlines out))
             (lit "1:") (lit "~")).
Proof.
  intros H. unfold find_installed_libcxx_package_versions, run_command.
  change [lit "dpkg"; lit "-l"] with dpkg_command. rewrite H. reflexivity.
Qed.

Lemma find_libcxx_version_not_found (h : Host) (path v : str) :
  result (find_libcxx_so_version h path) = Returns v ->
  subprocess_run h dpkg_command = CommandNotFound ->
  result (find_libcxx_version h path) = Raises dpkg_not_found.
Proof.
  intros Hv Hd. unfold find_libcxx_version.
  rewrite (result_bind_returns _ _ v Hv).
  apply result_bind_raises. by apply find_installed_not_found.
Qed.

Lemma find_libcxx_version_completed (h : Host) (path v out : str) :
  result (find_libcxx_so_version h path) = Returns v ->
  subprocess_run h dpkg_command = Completed out ->
  result (find_libcxx_version h path) = Returns v.
Proof.
  intros Hv Hd. unfold find_libcxx_version.
  rewrite (result_bind_returns _ _ v Hv).
  rewrite (result_bind_returns _ _ _ (find_installed_completed h out Hd)).
  match goal with |- context [if ?b then _ else _] => destruct b end; reflexivity.
Qed.

(** C1, as the code has it. On the derived channel, once the evidence
    extraction has produced the version v: if the package query tool is
    absent, resolution fails with the error that names dpkg; if the package
    query completes, whatever it prints, resolution returns the derived
    selector for v, with the remote fragment refs/tags/llvmorg-v. *)
Theorem missing_dpkg_is_fatal (h : Host) (args : Args) (v : str) :
  first_populated args = ViaDerived ->
  result (find_libcxx_so_version h (args_libcxx_so args)) = Returns v ->
  (subprocess_run h dpkg_command = CommandNotFound ->
   result (select h args) = Raises dpkg_not_found)
  /\ (forall out,
         subprocess_run h dpkg_command = Completed out ->
         result (select h args) = Returns (derived_selector v)
         /\ url_middle (derived_selector v) = lit "refs/tags/llvmorg-" ++ v).
Proof.
  intros Hd Hv. rewrite (select_derived h args Hd). split.
  - intros Hn. apply result_bind_raises. by apply find_libcxx_version_not_found with (v := v).
  - intros out Ho. split; [|reflexivity].
    by rewrite (result_bind_returns _ _ v (find_libcxx_version_completed h _ v out Hv Ho)).
Qed.

Lemma missing_dpkg_is_fatal_witness :
  result (select no_dpkg_host no_args) = Raises dpkg_not_found
  /\ result (select good_host no_args) = Returns (derived_selector (lit "19.0.0")).
Proof.
  split.
  - apply (proj1 (missing_dpkg_is_fatal no_dpkg_host no_args (lit "19.0.0") eq_refl
                    ltac:(vm_compute; reflexivity))).
    reflexivity.
  - apply (proj2 (missing_dpkg_is_fatal good_host no_args (lit "19.0.0") eq_refl
                    ltac:(vm_compute; reflexivity))
             (dpkg_line (lit "19.0.0") ++ [newline])).
    reflexivity.
Defined.

(** C1, as the specification has it, fails: on a host without dpkg the
    evidence extraction yields 19.0.0 and resolution raises instead of
    returning the derived selector. *)
Lemma missing_dpkg_aborts_resolution :
  ~ (forall (h : Host) (args : Args) (v : str),
        first_populated args = ViaDerived ->
        result (find_libcxx_so_version h (args_libcxx_so args)) = Returns v ->
        subprocess_run h dpkg_command = CommandNotFound ->
        result (select h args) = Returns (derived_selector v)).
Proof.
  intros H.
  specialize (H no_dpkg_host no_args (lit "19.0.0") eq_refl
                ltac:(vm_compute; reflexivity) eq_refl).
  vm_compute in H. discriminate H.
Qed.

(** ** The write-access walk (lines 23-28) *)

Lemma ancestor_0 (p : PurePath) : ancestor 0 p = p.
Proof. reflexivity. Qed.

Lemma ancestor_S (k : nat) (p : PurePath) : ancestor (S k) p = ancestor k (parent p).
Proof. unfold ancestor. apply Nat.iter_succ_r. Qed.

Lemma parent_fixed (p : PurePath) : parts p = [] -> parent p = p.
Proof. destruct p as [r ps]. simpl. intros ->. reflexivity. Qed.

Lemma ancestor_fixed (k : nat) (p : PurePath) : parts p = [] -> ancestor k p = p.
Proof.
  intros H. induction k as [|k IH]; [reflexivity|].
  rewrite ancestor_S, (parent_fixed p H). exact IH.
Qed.

Lemma parts_parent_length (p : PurePath) :
  parts p <> [] -> S (length (parts (parent p))) = length (parts p).
Proof.
  destruct p as [r ps]. simpl. intros H.
  destruct (exists_last H) as (l & x & ->).
  rewrite removelast_last, length_app. simpl. lia.
Qed.

Lemma has_write_access_found (h : Host) (k : nat) :
  forall (p : PurePath) (fuel : nat),
    Path_exists h (ancestor k p) = Present ->
    (forall j, (j < k)%nat -> Path_exists h (ancestor j p) = Absent) ->
    (k < fuel)%nat ->
    has_write_access h fuel p = Returns (os_access_W_OK h (ancestor k p)).
Proof.
  induction k as [|k IH]; intros p fuel Hex Hfirst Hfuel.
  - destruct fuel as [|fuel]; [lia|]. rewrite ancestor_0 in *. simpl. by rewrite Hex.
  - destruct fuel as [|fuel]; [lia|]. rewrite ancestor_S in Hex |- *.
    cbn [has_write_access].
    pose proof (Hfirst 0%nat ltac:(lia)) as H0. rewrite ancestor_0 in H0. rewrite H0.
    apply IH; [done| |lia].
    intros j Hj. rewrite <- ancestor_S. apply Hfirst. lia.
Qed.

(** An OSError that [path.exists()] lets through ends the walk. *)
Lemma has_write_access_raises (h : Host) (k : nat) :
  forall (p : PurePath) (fuel : nat) (err : str),
    Path_exists h (ancestor k p) = StatRaises err ->
    (forall j, (j < k)%nat -> Path_exists h (ancestor j p) = Absent) ->
    (k < fuel)%nat ->
    has_write_access h fuel p = Raises (OSError err).
Proof.
  induction k as [|k IH]; intros p fuel err Hex Hfirst Hfuel.
  - destruct fuel as [|fuel]; [lia|]. rewrite ancestor_0 in *. simpl. by rewrite Hex.
  - destruct fuel as [|fuel]; [lia|]. rewrite ancestor_S in Hex.
    cbn [has_write_access].
    pose proof (Hfirst 0%nat ltac:(lia)) as H0. rewrite ancestor_0 in H0. rewrite H0.
    apply IH; [done| |lia].
    intros j Hj. rewrite <- ancestor_S. apply Hfirst. lia.
Qed.

(** The walk ends in no other exception. *)
Lemma has_write_access_only_oserror (h : Host) (fuel : nat) :
  forall (p : PurePath) (e : pyexn),
    has_write_access h fuel p = Raises e -> exists err, e = OSError err.
Proof.
  induction fuel as [|fuel IH]; intros p e; [discriminate|].
  cbn [has_write_access]. destruct (Path_exists h p) as [| |err]; [discriminate|apply IH|].
  intros [= <-]. eauto.
Qed.

(** Were every path of the walk reported absent, the loop would not end. *)
Lemma has_write_access_none (h : Host) (fuel : nat) :
  forall p : PurePath,
    (forall k, Path_exists h (ancestor k p) = Absent) ->
    has_write_access h fuel p = OutOfFuel.
Proof.
  induction fuel as [|fuel IH]; intros p Hnone; [reflexivity|].
  cbn [has_write_access]. pose proof (Hnone 0%nat) as H0. rewrite ancestor_0 in H0.
  rewrite H0. apply IH.
  intros k. rewrite <- ancestor_S. apply Hnone.
Qed.

(** The first path of the walk that is not reported absent is met within as
    many steps as the path has components. *)
Lemma first_answering_ancestor (h : Host) (n : nat) :
  forall p : PurePath,
    length (parts p) = n ->
    (exists k, Path_exists h (ancestor k p) <> Absent) ->
    exists k, (k <= n)%nat
              /\ Path_exists h (ancestor k p) <> Absent
              /\ (forall j, (j < k)%nat -> Path_exists h (ancestor j p) = Absent).
Proof.
  induction n as [|n IH]; intros p Hlen [k Hk].
  - exists 0%nat. apply length_zero_iff_nil in Hlen.
    rewrite (ancestor_fixed k p Hlen) in Hk.
    split; [lia|]. split; [exact Hk|]. intros j Hj. lia.
  - assert (Hhere : Path_exists h p <> Absent ->
                    exists k, (k <= S n)%nat
                              /\ Path_exists h (ancestor k p) <> Absent
                              /\ (forall j, (j < k)%nat -> Path_exists h (ancestor j p) = Absent)).
    { intros Hp. exists 0%nat. split; [lia|]. split; [exact Hp|]. intros j Hj. lia. }
    destruct (Path_exists h p) as [| |err] eqn:Hp; [apply Hhere; discriminate| |apply Hhere; discriminate].
    destruct k as [|k]; [rewrite ancestor_0 in Hk; congruence|].
    rewrite ancestor_S in Hk.
    assert (Hne : parts p <> []) by (intros E; rewrite E in Hlen; discriminate).
    pose proof (parts_parent_length p Hne) as Hl.
    destruct (IH (parent p) ltac:(lia) (ex_intro _ k Hk)) as (k' & Hle & Hex & Hfirst).
    exists (S k'). split; [lia|]. rewrite ancestor_S. split; [exact Hex|].
    intros [|j] Hj; [exact Hp|]. rewrite ancestor_S. apply Hfirst. lia.
Qed.

(** After as many steps as the path has components the walk stands at the
    path's root (the current directory for a relative path) and stays
    there. *)
Lemma walk_reaches_root (n : nat) :
  forall p : PurePath,
    length (parts p) = n ->
    ancestor n p = {| root := root p; parts := [] |}.
Proof.
  induction n as [|n IH]; intros p Hlen.
  - apply length_zero_iff_nil in Hlen. destruct p as [r ps]. simpl in *. by subst.
  - assert (Hne : parts p <> []) by (intros E; rewrite E in Hlen; discriminate).
    pose proof (parts_parent_length p Hne) as Hl.
    rewrite ancestor_S, IH by lia. reflexivity.
Qed.

(** C8, as the code has it. Whenever the root of the destination path (the
    current directory for a relative path) is not reported absent, the walk
    ends within as many steps as the destination has components, all paths
    before the last one having been reported absent: it returns the
    writability of the first path reported present, or it ends in the
    OSError that [path.exists()] raised on that path. *)
Theorem write_access_walk_terminates (h : Host) (p : PurePath) :
  Path_exists h {| root := root p; parts := [] |} <> Absent ->
  exists k, (k <= length (parts p))%nat
            /\ (forall j, (j < k)%nat -> Path_exists h (ancestor j p) = Absent)
            /\ ((Path_exists h (ancestor k p) = Present
                 /\ forall fuel, (k < fuel)%nat ->
                                 has_write_access h fuel p =
                                 Returns (os_access_W_OK h (ancestor k p)))
                \/ (exists err,
                       Path_exists h (ancestor k p) = StatRaises err
                       /\ forall fuel, (k < fuel)%nat ->
                                       has_write_access h fuel p = Raises (OSError err))).
Proof.
  intros Hroot.
  assert (Hex : exists k, Path_exists h (ancestor k p) <> Absent).
  { exists (length (parts p)). by rewrite (walk_reaches_root _ p eq_refl). }
  destruct (first_answering_ancestor h _ p eq_refl Hex) as (k & Hle & Hk & Hfirst).
  exists k. split; [exact Hle|]. split; [exact Hfirst|].
  destruct (Path_exists h (ancestor k p)) as [| |err] eqn:Hans; [|congruence|].
  - left. split; [reflexivity|]. intros fuel Hfuel. by apply has_write_access_found.
  - right. exists err. split; [reflexivity|]. intros fuel Hfuel.
    by apply has_write_access_raises with (k := k).
Qed.

Lemma write_access_walk_terminates_witness :
  exists k, (k <= 3)%nat
            /\ (forall j, (j < k)%nat ->
                          Path_exists readonly_root_host (ancestor j (Path scenario_a_dest)) = Absent)
            /\ ((Path_exists readonly_root_host (ancestor k (Path scenario_a_dest)) = Present
                 /\ forall fuel, (k < fuel)%nat ->
                                 has_write_access readonly_root_host fuel (Path scenario_a_dest) =
                                 Returns (os_access_W_OK readonly_root_host
                                            (ancestor k (Path scenario_a_dest))))
                \/ (exists err,
                       Path_exists readonly_root_host (ancestor k (Path scenario_a_dest))
                       = StatRaises err
                       /\ forall fuel, (k < fuel)%nat ->
                                       has_write_access readonly_root_host fuel
                                         (Path scenario_a_dest) = Raises (OSError err))).
Proof.
  apply (write_access_walk_terminates readonly_root_host (Path scenario_a_dest)).
  discriminate.
Defined.

(** C8, as the specification has it, fails: below a directory that may not
    be searched [path.exists()] raises on the destination, and the check
    ends in that error instead of returning a writability, although the
    root directory exists. *)
Lemma unsearchable_ancestor_raises :
  ~ (forall (h : Host) (p : PurePath),
        Path_exists h {| root := root p; parts := [] |} = Present ->
        exists fuel b, has_write_access h fuel p = Returns b).
Proof.
  intros H.
  destruct (H unsearchable_host (Path (lit "/locked/gdb/libcxx_printers_tag_v.py")) eq_refl)
    as (fuel & b & Hb).
  destruct fuel as [|fuel]; discriminate Hb.
Qed.

(** ** Nothing before the download touches the network *)

Lemma network_calls_bind {A B} (m : M A) (k : A -> M B) :
  network_calls m = 0%nat ->
  (forall a, network_calls (k a) = 0%nat) ->
  network_calls (bind m k) = 0%nat.
Proof.
  intros Hm Hk. destruct m as [t [a|e|]]; try exact Hm.
  unfold bind. specialize (Hk a). destruct (k a) as [t' r].
  unfold network_calls in *. simpl in *. rewrite network_calls_app. lia.
Qed.

Lemma network_calls_find_real_path (h : Host) (path : str) :
  network_calls (find_real_path h path) = 0%nat.
Proof.
  unfold find_real_path.
  destruct (os_path_exists h path), (os_path_isfile h path), (os_path_islink h path);
    reflexivity.
Qed.

Lemma network_calls_run_command (h : Host) (args : list str) :
  network_calls (run_command h args) = 0%nat.
Proof. unfold run_command. destruct (subprocess_run h args); reflexivity. Qed.

Lemma network_calls_find_libcxx_version (h : Host) (path : str) :
  network_calls (find_libcxx_version h path) = 0%nat.
Proof.
  unfold find_libcxx_version, find_libcxx_so_version, find_installed_libcxx_package_versions.
  apply network_calls_bind.
  - apply network_calls_bind; [apply network_calls_find_real_path|]. intros real.
    apply network_calls_bind; [apply network_calls_run_command|]. intros out.
    match goal with |- context [match ?l with _ => _ end] => destruct l as [|a [|b l']] end;
      reflexivity.
  - intros v. apply network_calls_bind.
    + apply network_calls_bind; [apply network_calls_run_command|]. reflexivity.
    + intros versions. apply network_calls_bind; [|reflexivity].
      destruct (negb (list_in v versions)); reflexivity.
Qed.

Lemma network_calls_parse_args (h : Host) (args : Args) :
  network_calls (parse_args h args) = 0%nat.
Proof.
  unfold parse_args. apply network_calls_bind.
  - unfold select.
    destruct (truthy (args_tag args)); [reflexivity|].
    destruct (truthy (args_branch args)); [reflexivity|].
    destruct (truthy (args_commit args)); [reflexivity|].
    apply network_calls_bind; [apply network_calls_find_libcxx_version|]. reflexivity.
  - intros sel. apply network_calls_bind; [apply network_calls_find_real_path|]. reflexivity.
Qed.

(** ** Permission denied (lines 30-31, 211-213) *)

Lemma download_file_denied (h : Host) (fuel : nat) (url file_path : str) :
  has_write_access h fuel (Path file_path) = Returns false ->
  download_file h fuel url file_path = ret false.
Proof. intros H. unfold download_file. rewrite H. reflexivity. Qed.

Lemma main_denied (h : Host) (fuel : nat) (args : Args) (plan : Plan) :
  result (parse_args h args) = Returns plan ->
  has_write_access h fuel (Path (dest_path (download_to plan) (file_name plan))) = Returns false ->
  main h fuel args =
  (events (parse_args h args) ++ [Print (denied_line (dest_path (download_to plan) (file_name plan)))],
   Raises (SystemExit 1)).
Proof.
  intros Hp Hw. unfold main. destruct (parse_args h args) as [t r]. simpl in Hp. subst r.
  unfold bind at 1. rewrite (download_file_denied _ _ _ _ Hw), bind_ret. reflexivity.
Qed.

(** Where [path.exists()] raises on a path of the walk, every earlier one
    having been reported absent, the run ends with that OSError: no network
    call, no diagnostic, exit status 1. *)
Lemma walk_error_ends_run (h : Host) (fuel : nat) (args : Args) (plan : Plan) (k : nat)
    (err : str) :
  result (parse_args h args) = Returns plan ->
  Path_exists h (ancestor k (Path (dest_path (download_to plan) (file_name plan))))
  = StatRaises err ->
  (forall j, (j < k)%nat ->
             Path_exists h (ancestor j (Path (dest_path (download_to plan) (file_name plan))))
             = Absent) ->
  (k < fuel)%nat ->
  main h fuel args = (events (parse_args h args), Raises (OSError err)).
Proof.
  intros Hp Hex Hfirst Hfuel.
  pose proof (has_write_access_raises h k _ fuel err Hex Hfirst Hfuel) as Hacc.
  unfold main. destruct (parse_args h args) as [t r]. simpl in Hp. subst r.
  unfold bind at 1. unfold download_file. rewrite Hacc. simpl. by rewrite app_nil_r.
Qed.

(** C3, as the code has it. When [path.exists()] reports every path of the
    upward walk before the k-th as absent and the k-th as present (the walk
    starts at the destination path itself), and that path is not writable,
    [download_file] returns False without any event, the run makes no
    network call, its last line on standard output is the diagnostic that
    names the destination file, and it exits with status 1. *)
Theorem permission_denied_before_network
    (h : Host) (fuel : nat) (args : Args) (plan : Plan) (k : nat) :
  result (parse_args h args) = Returns plan ->
  Path_exists h (ancestor k (Path (dest_path (download_to plan) (file_name plan)))) = Present ->
  (forall j, (j < k)%nat ->
             Path_exists h (ancestor j (Path (dest_path (download_to plan) (file_name plan))))
             = Absent) ->
  os_access_W_OK h (ancestor k (Path (dest_path (download_to plan) (file_name plan)))) = false ->
  (k < fuel)%nat ->
  download_file h fuel (url plan) (dest_path (download_to plan) (file_name plan)) = ret false
  /\ network_calls (main h fuel args) = 0%nat
  /\ last (stdout_lines (main h fuel args)) =
     Some (lit "Permission denied: " ++ in_quotes (dest_path (download_to plan) (file_name plan)))
  /\ exit_status (main h fuel args) = Some 1%Z.
Proof.
  intros Hp Hex Hfirst Hw Hfuel.
  pose proof (has_write_access_found h k _ fuel Hex Hfirst Hfuel) as Hacc.
  rewrite Hw in Hacc.
  split; [by apply download_file_denied|].
  rewrite (main_denied h fuel args plan Hp Hacc).
  split; [|split].
  - pose proof (network_calls_parse_args h args) as Hn.
    unfold network_calls in *. simpl. rewrite network_calls_app, Hn. reflexivity.
  - unfold stdout_lines. simpl. rewrite omap_app. simpl. apply last_snoc.
  - reflexivity.
Qed.

Lemma permission_denied_before_network_witness :
  download_file readonly_root_host 8
    (make_url (lit "refs/tags/llvmorg-18.1.0")) scenario_a_dest = ret false
  /\ network_calls (main readonly_root_host 8 (tag_args (lit "llvmorg-18.1.0") (lit "/tmp/x")))
     = 0%nat
  /\ last (stdout_lines (main readonly_root_host 8
                           (tag_args (lit "llvmorg-18.1.0") (lit "/tmp/x")))) =
     Some (lit "Permission denied: " ++ in_quotes scenario_a_dest)
  /\ exit_status (main readonly_root_host 8 (tag_args (lit "llvmorg-18.1.0") (lit "/tmp/x")))
     = Some 1%Z.
Proof.
  refine (permission_denied_before_network readonly_root_host 8
            (tag_args (lit "llvmorg-18.1.0") (lit "/tmp/x"))
            {| url := make_url (lit "refs/tags/llvmorg-18.1.0");
               file_name := lit "libcxx_printers_tag_llvmorg_18_1_0";
               download_to := lit "/tmp/x";
               libcxx_so_path := default_libcxx_so |}
            3 eq_refl eq_refl _ eq_refl _).
  - intros j Hj.
    destruct j as [|[|[|j]]]; [reflexivity|reflexivity|reflexivity|lia].
  - lia.
Defined.

(** C3, as the specification has it, fails: when the destination file is
    already there and writable while its directory, the nearest existing
    ancestor, is read-only, the check passes and the fetch is made. *)
Lemma writable_file_in_readonly_directory :
  ~ (forall (h : Host) (fuel : nat) (args : Args) (plan : Plan) (k : nat),
        result (parse_args h args) = Returns plan ->
        (1 <= k)%nat ->
        Path_exists h (ancestor k (Path (dest_path (download_to plan) (file_name plan))))
        = Present ->
        (forall j, (1 <= j < k)%nat ->
                   Path_exists h (ancestor j (Path (dest_path (download_to plan) (file_name plan))))
                   = Absent) ->
        os_access_W_OK h (ancestor k (Path (dest_path (download_to plan) (file_name plan))))
        = false ->
        (k < fuel)%nat ->
        network_calls (main h fuel args) = 0%nat
        /\ exit_status (main h fuel args) = Some 1%Z).
Proof.
  intros H.
  destruct (H rerun_host 8%nat (tag_args (lit "llvmorg-18.1.0") (lit "/tmp/x"))
              {| url := make_url (lit "refs/tags/llvmorg-18.1.0");
                 file_name := lit "libcxx_printers_tag_llvmorg_18_1_0";
                 download_to := lit "/tmp/x";
                 libcxx_so_path := default_libcxx_so |}
              1%nat eq_refl ltac:(lia) eq_refl ltac:(intros; lia) eq_refl ltac:(lia))
    as [Hn _].
  vm_compute in Hn. discriminate Hn.
Qed.

(** ** Transport failures (lines 35-47) *)

Lemma download_file_transport (h : Host) (fuel : nat) (url file_path : str)
    (t : transport_failure) :
  has_write_access h fuel (Path file_path) = Returns true ->
  Path_mkdir h (parent (Path file_path)) = None ->
  urlopen_copy h url file_path = Some t ->
  download_file h fuel url file_path =
  ([Mkdir (parent (Path file_path)); Urlopen url 10], Raises (download_handler url t)).
Proof.
  intros Hw Hm Hu. unfold download_file. rewrite Hw. simpl. rewrite Hm, Hu. reflexivity.
Qed.

Lemma str_in_quoted_url (pre url : str) : str_in url (pre ++ quoted_url url) = true.
Proof.
  change (pre ++ quoted_url url) with (pre ++ [newline; squote] ++ url ++ [squote]).
  rewrite app_assoc. apply str_in_app.
Qed.

(** X19. An HTTP-level or network-level failure surfaces as one RuntimeError
    whose message ends with the URL and whose cause is the failure; the
    network was called once. *)
Lemma http_and_url_errors_name_url (h : Host) (fuel : nat) (url file_path : str)
    (t : transport_failure) :
  has_write_access h fuel (Path file_path) = Returns true ->
  Path_mkdir h (parent (Path file_path)) = None ->
  urlopen_copy h url file_path = Some t ->
  (exists code reason, t = HTTPError code reason) \/ (exists reason, t = URLError reason) ->
  exists msg,
    result (download_file h fuel url file_path) = Raises (RuntimeError msg (Some (Transport t)))
    /\ str_in url msg = true
    /\ network_calls (download_file h fuel url file_path) = 1%nat.
Proof.
  intros Hw Hm Hu Ht. rewrite (download_file_transport _ _ _ _ _ Hw Hm Hu).
  destruct Ht as [(code & reason & ->)|(reason & ->)]; cbn [download_handler].
  - eexists. split; [reflexivity|]. split; [|reflexivity].
    rewrite !app_assoc. apply str_in_quoted_url.
  - eexists. split; [reflexivity|]. split; [|reflexivity].
    rewrite !app_assoc. apply str_in_quoted_url.
Qed.

(** C7 at a timeout. When the transfer times out, the handler of line 45
    evaluates a name that is not bound: what reaches the caller is an
    UnboundLocalError, not a RuntimeError, and it carries neither the URL nor
    the timeout as its cause. The network was called once. *)
Theorem timeout_loses_url (h : Host) (fuel : nat) (url file_path : str) :
  has_write_access h fuel (Path file_path) = Returns true ->
  Path_mkdir h (parent (Path file_path)) = None ->
  urlopen_copy h url file_path = Some TimeoutError ->
  result (download_file h fuel url file_path) = Raises (UnboundLocalError (lit "e"))
  /\ (forall msg from, result (download_file h fuel url file_path)
                       <> Raises (RuntimeError msg from))
  /\ network_calls (download_file h fuel url file_path) = 1%nat.
Proof.
  intros Hw Hm Hu. rewrite (download_file_transport _ _ _ _ _ Hw Hm Hu).
  split; [reflexivity|]. split; [|reflexivity]. intros msg from. discriminate.
Qed.

Lemma timeout_loses_url_witness :
  result (download_file timeout_host 8 (make_url (lit "refs/tags/llvmorg-18.1.0"))
            scenario_a_dest) = Raises (UnboundLocalError (lit "e"))
  /\ result (main timeout_host 8 (tag_args (lit "llvmorg-18.1.0") (lit "/tmp/x")))
     = Raises (UnboundLocalError (lit "e")).
Proof.
  split.
  - exact (proj1 (timeout_loses_url timeout_host 8 (make_url (lit "refs/tags/llvmorg-18.1.0"))
                    scenario_a_dest eq_refl eq_refl eq_refl)).
  - vm_compute. reflexivity.
Defined.

Lemma http_and_url_errors_name_url_witness :
  exists msg,
    result (download_file
              (faulty_host None good_run (Some (URLError (lit "[Errno -2] Name or service not known")))
                 None)
              8 (make_url (lit "refs/heads/main")) scenario_a_dest)
    = Raises (RuntimeError msg
                (Some (Transport (URLError (lit "[Errno -2] Name or service not known")))))
    /\ str_in (make_url (lit "refs/heads/main")) msg = true
    /\ network_calls
         (download_file
            (faulty_host None good_run
               (Some (URLError (lit "[Errno -2] Name or service not known"))) None)
            8 (make_url (lit "refs/heads/main")) scenario_a_dest) = 1%nat.
Proof.
  apply (http_and_url_errors_name_url
           (faulty_host None good_run
              (Some (URLError (lit "[Errno -2] Name or service not known"))) None)
           8 (make_url (lit "refs/heads/main")) scenario_a_dest
           (URLError (lit "[Errno -2] Name or service not known")) eq_refl eq_refl eq_refl).
  right. eexists. reflexivity.
Defined.

(** ** The sanitized suffix (lines 189-191) *)

Lemma keeps_underscore (h : Host) : str_in (lower h underscore) alphabet = true.
Proof. reflexivity. Qed.

(** Applying the transform twice is applying it once. *)
Lemma sanitize_idempotent (h : Host) (s : str) : sanitize h (sanitize h s) = sanitize h s.
Proof.
  unfold sanitize. induction s as [|c s IH]; [reflexivity|].
  cbn [map]. rewrite IH. f_equal.
  destruct (str_in (lower h c) alphabet) eqn:Hc.
  - by rewrite Hc.
  - by rewrite keeps_underscore.
Qed.

Lemma str_in_singleton (c : N) (hay : str) : str_in [c] hay = true -> In c hay.
Proof.
  induction hay as [|x hay IH]; simpl; [discriminate|].
  destruct (c =? x) eqn:E.
  - apply N.eqb_eq in E. auto.
  - simpl. auto.
Qed.

Lemma kept_ascii_is_safe (h : Host) (c : N) :
  c < 128 -> str_in (lower h c) alphabet = true -> safe_char c = true.
Proof.
  intros Hc. unfold lower. rewrite (proj2 (N.ltb_lt c 128) Hc).
  unfold safe_char. destruct ((65 <=? c) && (c <=? 90)) eqn:Hup.
  - intros _. by rewrite orb_true_r.
  - intros Hin%str_in_singleton. vm_compute in Hin.
    repeat (destruct Hin as [<-|Hin]; [reflexivity|]). contradiction.
Qed.

(** On suffixes made of ASCII characters every output character is drawn
    from the safe alphabet. *)
Lemma sanitize_ascii_safe (h : Host) (s : str) :
  Forall (fun c => c < 128) s ->
  Forall (fun c => safe_char c = true) (sanitize h s).
Proof.
  unfold sanitize. induction 1 as [|c s Hc Hs IH]; [constructor|].
  cbn [map]. constructor; [|exact IH].
  destruct (str_in (lower h c) alphabet) eqn:E; [|reflexivity].
  by apply kept_ascii_is_safe with (h := h).
Qed.

(** C5 at U+212A. The lower case of KELVIN SIGN is the letter k, so the
    membership test of line 190 keeps the sign: with the tag made of that
    one character the sanitized suffix still holds it, and it is no
    character of the safe alphabet. *)
Theorem kelvin_sign_survives_sanitize (h : Host) (dir : str) :
  select h (tag_args [kelvin] dir) =
    ret {| variant := ViaTag;
           url_middle := lit "refs/tags/" ++ [kelvin];
           file_suffix := lit "tag_" ++ [kelvin] |}
  /\ sanitize h (lit "tag_" ++ [kelvin]) = lit "tag_" ++ [kelvin]
  /\ safe_char kelvin = false
  /\ sanitize h (sanitize h (lit "tag_" ++ [kelvin])) = sanitize h (lit "tag_" ++ [kelvin]).
Proof.
  split; [reflexivity|]. split; [reflexivity|]. split; [reflexivity|].
  apply sanitize_idempotent.
Qed.

(** * Further properties of the code *)

(** ** Overrides and the evidence commands (lines 52-61, 80-97, 175-198) *)

Lemma select_override (h : Host) (args : Args) :
  first_populated args <> ViaDerived ->
  exists sel, select h args = ret sel /\ variant sel = first_populated args.
Proof.
  unfold first_populated, select.
  destruct (truthy (args_tag args)); [eauto|].
  destruct (truthy (args_branch args)); [eauto|].
  destruct (truthy (args_commit args)); [eauto|]. congruence.
Qed.

(** X1. With a tag, a branch or a commit given, [parse_args] runs no command and
    prints nothing; the plan it returns carries the real path of the
    library, the download directory as given, and the URL and file name of
    the selected channel. *)
Theorem override_skips_evidence (h : Host) (args : Args) :
  first_populated args <> ViaDerived ->
  events (parse_args h args) = []
  /\ forall plan,
      result (parse_args h args) = Returns plan ->
      libcxx_so_path plan = os_path_realpath h (args_libcxx_so args)
      /\ download_to plan = args_download_to args
      /\ exists sel,
          select h args = ret sel
          /\ variant sel = first_populated args
          /\ url plan = make_url (url_middle sel)
          /\ file_name plan = lit "libcxx_printers_" ++ sanitize h (file_suffix sel).
Proof.
  intros Hov. destruct (select_override h args Hov) as (sel & Hsel & Hvar).
  unfold parse_args. rewrite Hsel, bind_ret. unfold find_real_path.
  destruct (os_path_exists h (args_libcxx_so args)); simpl; [|split; [done|discriminate]].
  destruct (os_path_isfile h (args_libcxx_so args)),
           (os_path_islink h (args_libcxx_so args)); simpl;
    (split; [done|]); try discriminate.
  all: intros plan [= <-]; simpl; split; [done|]; split; [done|]; exists sel; done.
Qed.

Lemma override_skips_evidence_witness :
  events (parse_args no_dpkg_host (branch_commit_args (lit "main") (lit "0123456789abcdef")))
  = [].
Proof.
  refine (proj1 (override_skips_evidence no_dpkg_host
                   (branch_commit_args (lit "main") (lit "0123456789abcdef")) _)).
  discriminate.
Defined.

(** X2. On the derived channel, when the scan command exits with a non-zero
    status (as grep does when no line matches) the run ends with the
    CalledProcessError of that command, and when grep is not installed with
    the error that names it; in both cases grep is the only thing that ran:
    no package query, no network call, nothing printed. *)
Theorem evidence_command_failure (h : Host) (fuel : nat) (args : Args) (real : str) :
  first_populated args = ViaDerived ->
  find_real_path h (args_libcxx_so args) = ret real ->
  (forall code,
      subprocess_run h (grep_command (parent (Path real))) = NonZeroExit code ->
      main h fuel args =
      ([Run (grep_command (parent (Path real)))],
       Raises (CalledProcessError (grep_command (parent (Path real))) code)))
  /\ (subprocess_run h (grep_command (parent (Path real))) = CommandNotFound ->
      main h fuel args = ([Run (grep_command (parent (Path real)))], Raises grep_not_found)).
Proof.
  intros Hd Hreal. unfold grep_command.
  split; [intros code Hrun|intros Hrun].
  all: unfold main, parse_args; rewrite (select_derived h args Hd).
  all: unfold find_libcxx_version, find_libcxx_so_version; rewrite Hreal, bind_ret.
  all: unfold run_command; rewrite Hrun; reflexivity.
Qed.

Lemma evidence_command_failure_witness :
  exit_status (main grep_fails_host 8 no_args) = Some 1%Z
  /\ main no_grep_host 8 no_args =
     ([Run (grep_command (parent (Path default_libcxx_so)))], Raises grep_not_found).
Proof.
  split.
  - rewrite (proj1 (evidence_command_failure grep_fails_host 8 no_args default_libcxx_so
                      eq_refl eq_refl) 1%Z eq_refl).
    reflexivity.
  - exact (proj2 (evidence_command_failure no_grep_host 8 no_args default_libcxx_so
                    eq_refl eq_refl) eq_refl).
Defined.

Lemma stdout_lines_bind {A B} (m : M A) (k : A -> M B) :
  stdout_lines m = [] ->
  (forall a, stdout_lines (k a) = []) ->
  stdout_lines (bind m k) = [].
Proof.
  intros Hm Hk. destruct m as [t [a|e|]]; try exact Hm.
  unfold bind. specialize (Hk a). destruct (k a) as [t' r].
  unfold stdout_lines in *. simpl in *. by rewrite omap_app, Hm, Hk.
Qed.

Lemma stdout_lines_bind_returns {A B} (m : M A) (k : A -> M B) (a : A) :
  result m = Returns a ->
  stdout_lines (bind m k) = stdout_lines m ++ stdout_lines (k a).
Proof.
  intros H. unfold stdout_lines. rewrite (events_bind_returns m k a H). apply omap_app.
Qed.

Lemma stdout_lines_run_command (h : Host) (args : list str) :
  stdout_lines (run_command h args) = [].
Proof. unfold run_command. destruct (subprocess_run h args); reflexivity. Qed.

Lemma stdout_lines_find_real_path (h : Host) (path : str) :
  stdout_lines (find_real_path h path) = [].
Proof.
  unfold find_real_path.
  destruct (os_path_exists h path), (os_path_isfile h path), (os_path_islink h path);
    reflexivity.
Qed.

Lemma stdout_lines_find_libcxx_so_version (h : Host) (path : str) :
  stdout_lines (find_libcxx_so_version h path) = [].
Proof.
  unfold find_libcxx_so_version.
  apply stdout_lines_bind; [apply stdout_lines_find_real_path|]. intros real.
  apply stdout_lines_bind; [apply stdout_lines_run_command|]. intros out.
  match goal with |- context [match ?l with _ => _ end] => destruct l as [|a [|b l']] end;
    reflexivity.
Qed.

Lemma list_in_true (x : str) (l : list str) : list_in x l = true <-> x ∈ l.
Proof.
  unfold list_in. rewrite existsb_exists. split.
  - intros (y & Hin & Hy). apply bool_decide_eq_true in Hy as ->. by apply list_elem_of_In.
  - intros Hin. exists x. split; [by apply list_elem_of_In|]. by apply bool_decide_eq_true.
Qed.

(** X3. A version the package database does not list is only warned about.
    Once the library's version v is found and the package query has
    completed, [find_libcxx_version] returns v; it prints nothing when v is
    among the package versions and otherwise exactly one line, the warning
    that names the library path, v and the package versions, these in the
    order in which the host's set yields them. *)
Theorem mismatch_is_only_a_warning (h : Host) (path v out : str) :
  result (find_libcxx_so_version h path) = Returns v ->
  subprocess_run h dpkg_command = Completed out ->
  result (find_libcxx_version h path) = Returns v
  /\ (v ∈ extract_version_numbers h (libcxx_lines out) (lit "1:") (lit "~") ->
      stdout_lines (find_libcxx_version h path) = [])
  /\ (v ∉ extract_version_numbers h (libcxx_lines out) (lit "1:") (lit "~") ->
      stdout_lines (find_libcxx_version h path) =
      [mismatch_warning path v
         (extract_version_numbers h (libcxx_lines out) (lit "1:") (lit "~"))]).
Proof.
  intros Hv Hd. split; [by apply find_libcxx_version_completed with (out := out)|].
  pose proof (find_installed_completed h out Hd) as Hp. fold (libcxx_lines out) in Hp.
  assert (Hq : stdout_lines (find_installed_libcxx_package_versions h) = []).
  { unfold find_installed_libcxx_package_versions.
    apply stdout_lines_bind; [apply stdout_lines_run_command|]. reflexivity. }
  unfold find_libcxx_version.
  rewrite (stdout_lines_bind_returns _ _ v Hv), stdout_lines_find_libcxx_so_version.
  rewrite (stdout_lines_bind_returns _ _ _ Hp), Hq. simpl.
  split; intros Hin.
  - apply list_in_true in Hin. rewrite Hin. reflexivity.
  - destruct (list_in v _) eqn:E; [by apply list_in_true in E|]. reflexivity.
Qed.

Lemma mismatch_is_only_a_warning_witness :
  result (find_libcxx_version mismatch_host default_libcxx_so) = Returns (lit "19.0.0")
  /\ stdout_lines (find_libcxx_version mismatch_host default_libcxx_so) =
     [lit "Warning: /usr/lib/x86_64-linux-gnu/libc++.so.1 version found to be 19.0.0, does not match installed package versions: ['18.1.8']"].
Proof.
  destruct (mismatch_is_only_a_warning mismatch_host default_libcxx_so (lit "19.0.0")
              mismatch_dpkg_output ltac:(vm_compute; reflexivity) eq_refl)
    as (Hres & _ & Hwarn).
  split; [exact Hres|].
  rewrite Hwarn; [vm_compute; reflexivity|].
  vm_compute. intros Hin. apply list_elem_of_In in Hin. simpl in Hin.
  destruct Hin as [Hin|[]]. discriminate Hin.
Defined.

(** ** Version numbers (lines 63-78) *)

Lemma version_set_same_lines (h : Host) (lines1 lines2 : list str) (p s : str) :
  (forall line, line ∈ lines1 <-> line ∈ lines2) ->
  version_set h lines1 p s = version_set h lines2 p s.
Proof.
  intros Hsame. apply set_eq. intros v. rewrite !elem_of_version_set.
  split; intros (line & Hin & Hm); exists line; (split; [by apply Hsame|done]).
Qed.

(** X4. The versions extracted from a batch of lines are those some line
    matches, each once; which versions they are depends on which lines are
    in the batch, not on their order or on how often a line occurs. The
    order of the returned list is the set's and may differ between two such
    batches. *)
Theorem version_numbers_are_a_set (h : Host) (lines1 lines2 : list str) (p s : str) :
  NoDup (extract_version_numbers h lines1 p s)
  /\ (forall v, v ∈ extract_version_numbers h lines1 p s
                <-> exists line, line ∈ lines1 /\ re_search h p s line = Some v)
  /\ ((forall line, line ∈ lines1 <-> line ∈ lines2) ->
      extract_version_numbers h lines1 p s ≡ₚ extract_version_numbers h lines2 p s).
Proof.
  split; [apply NoDup_extract_version_numbers|].
  split; [intros v; apply elem_of_extract_version_numbers|].
  intros Hsame. unfold extract_version_numbers.
  by rewrite !list_of_set_ordering, (version_set_same_lines h lines1 lines2 p s Hsame).
Qed.

Lemma version_numbers_are_a_set_witness :
  extract_version_numbers reversing_host
    [grep_line (lit "19.0.0"); grep_line (lit "18.1.8")] marker_prefix marker_suffix
  ≡ₚ extract_version_numbers reversing_host
       [grep_line (lit "18.1.8"); grep_line (lit "19.0.0"); grep_line (lit "18.1.8")]
       marker_prefix marker_suffix.
Proof.
  apply (proj2 (proj2 (version_numbers_are_a_set reversing_host
                         [grep_line (lit "19.0.0"); grep_line (lit "18.1.8")]
                         [grep_line (lit "18.1.8"); grep_line (lit "19.0.0");
                          grep_line (lit "18.1.8")]
                         marker_prefix marker_suffix))).
  intros line. rewrite !elem_of_cons, !elem_of_nil. tauto.
Defined.

(** The order is the host's: on a host whose sets yield the last added
    string first, the two versions of one batch come out in the reverse of
    the order of their lines. *)
Example set_order_is_the_hosts :
  extract_version_numbers reversing_host
    [grep_line (lit "19.0.0"); grep_line (lit "18.1.8")] marker_prefix marker_suffix
  = [lit "18.1.8"; lit "19.0.0"]
  /\ extract_version_numbers reversing_host
       [grep_line (lit "18.1.8"); grep_line (lit "19.0.0")] marker_prefix marker_suffix
     = [lit "19.0.0"; lit "18.1.8"].
Proof. split; vm_compute; reflexivity. Qed.

Lemma startswith_split (p s : str) : startswith p s = true -> s = p ++ drop (length p) s.
Proof.
  revert s. induction p as [|a p IH]; intros s H; [reflexivity|].
  destruct s as [|b s]; [discriminate|]. simpl in H.
  apply andb_true_iff in H as [Hab Hp]. apply N.eqb_eq in Hab as ->.
  simpl. f_equal. by apply IH.
Qed.

Lemma strip_prefix_Some (p s r : str) : strip_prefix p s = Some r -> s = p ++ r.
Proof.
  unfold strip_prefix. destruct (startswith p s) eqn:H; [|discriminate].
  intros [= <-]. by apply startswith_split.
Qed.

Lemma span_digits_spec (h : Host) (s d r : str) :
  span_digits h s = (d, r) -> s = d ++ r /\ Forall (fun c => is_digit h c = true) d.
Proof.
  revert d r. induction s as [|c s IH]; intros d r; simpl.
  - intros [= <- <-]. by split.
  - destruct (is_digit h c) eqn:Hc.
    + destruct (span_digits h s) as [d' r'] eqn:Hs. intros [= <- <-].
      destruct (IH d' r' eq_refl) as [-> Hall]. split; [reflexivity|by constructor].
    + intros [= <- <-]. by split.
Qed.

Lemma digits1_Some (h : Host) (s d r : str) :
  digits1 h s = Some (d, r) -> s = d ++ r /\ is_number h d.
Proof.
  unfold digits1. destruct (span_digits h s) as [d' r'] eqn:Hs.
  destruct (span_digits_spec h s d' r' Hs) as [-> Hall].
  destruct d' as [|c d']; [discriminate|]. intros [= <- <-].
  split; [reflexivity|]. split; [discriminate|done].
Qed.

Lemma match_version_at_Some (h : Host) (p s line v : str) :
  match_version_at h p s line = Some v ->
  exists a b c after,
    v = a ++ [dot] ++ b ++ [dot] ++ c
    /\ is_number h a /\ is_number h b /\ is_number h c
    /\ line = p ++ v ++ s ++ after.
Proof.
  unfold match_version_at. intros H.
  destruct (strip_prefix p line) as [s1|] eqn:H1; simpl in H; [|discriminate].
  destruct (digits1 h s1) as [[a s2]|] eqn:H2; simpl in H; [|discriminate].
  destruct (strip_prefix [dot] s2) as [s3|] eqn:H3; simpl in H; [|discriminate].
  destruct (digits1 h s3) as [[b s4]|] eqn:H4; simpl in H; [|discriminate].
  destruct (strip_prefix [dot] s4) as [s5|] eqn:H5; simpl in H; [|discriminate].
  destruct (digits1 h s5) as [[c s6]|] eqn:H6; simpl in H; [|discriminate].
  destruct (strip_prefix s s6) as [s7|] eqn:H7; simpl in H; [|discriminate].
  injection H as <-.
  apply strip_prefix_Some in H1, H3, H5, H7.
  apply digits1_Some in H2 as [E2 Ha], H4 as [E4 Hb], H6 as [E6 Hc].
  exists a, b, c, s7. split; [reflexivity|]. do 3 (split; [done|]).
  subst. repeat (rewrite <- app_assoc; simpl). reflexivity.
Qed.

(** X5. What [re.search] captures is a version in the line: three non-empty runs
    of digits joined by dots, standing in the line between the pattern's
    prefix and suffix. *)
Theorem matched_version_shape (h : Host) (p s line v : str) :
  re_search h p s line = Some v ->
  exists a b c before after,
    v = a ++ [dot] ++ b ++ [dot] ++ c
    /\ is_number h a /\ is_number h b /\ is_number h c
    /\ line = before ++ p ++ v ++ s ++ after.
Proof.
  induction line as [|x line IH]; simpl.
  - destruct (match_version_at h p s []) as [w|] eqn:Hm; [|discriminate].
    intros [= ->]. destruct (match_version_at_Some _ _ _ _ _ Hm) as (a & b & c & after & H).
    exists a, b, c, [], after. exact H.
  - destruct (match_version_at h p s (x :: line)) as [w|] eqn:Hm.
    + intros [= ->]. destruct (match_version_at_Some _ _ _ _ _ Hm) as (a & b & c & after & H).
      exists a, b, c, [], after. exact H.
    + intros Hs. destruct (IH Hs) as (a & b & c & before & after & Hv & Ha & Hb & Hc & Hl).
      exists a, b, c, (x :: before), after. rewrite Hl. done.
Qed.

Lemma matched_version_shape_witness :
  exists a b c before after,
    lit "19.0.0" = a ++ [dot] ++ b ++ [dot] ++ c
    /\ is_number good_host a /\ is_number good_host b /\ is_number good_host c
    /\ grep_line (lit "19.0.0") = before ++ marker_prefix ++ lit "19.0.0" ++ marker_suffix ++ after.
Proof.
  exact (matched_version_shape good_host marker_prefix marker_suffix
           (grep_line (lit "19.0.0")) (lit "19.0.0") eq_refl).
Defined.

(** X6. The package versions are read from the lines of the output of dpkg
    that contain the family name after two spaces, and from no other line:
    a version is reported exactly when such a line carries it between the
    epoch 1: and a tilde; each is reported once. *)
Theorem package_versions_come_from_libcxx_lines (h : Host) (out : str) :
  subprocess_run h dpkg_command = Completed out ->
  exists versions,
    find_installed_libcxx_package_versions h = ([Run dpkg_command], Returns versions)
    /\ NoDup versions
    /\ forall v, v ∈ versions <->
                 exists line, line ∈ splitlines out
                              /\ str_in (lit "  libc++") line = true
                              /\ re_search h (lit "1:") (lit "~") line = Some v.
Proof.
  intros Hd. exists (extract_version_numbers h (libcxx_lines out) (lit "1:") (lit "~")).
  split.
  { unfold find_installed_libcxx_package_versions, run_command.
    change [lit "dpkg"; lit "-l"] with dpkg_command. rewrite Hd. reflexivity. }
  split; [apply NoDup_extract_version_numbers|].
  intros v. rewrite elem_of_extract_version_numbers. unfold libcxx_lines.
  split; intros (line & Hin & Hm).
  - apply list_elem_of_filter in Hin as [Hf Hin]. eauto.
  - destruct Hm as [Hf Hm]. exists line. split; [|done]. by apply list_elem_of_filter.
Qed.

Lemma package_versions_come_from_libcxx_lines_witness :
  exists versions,
    find_installed_libcxx_package_versions mismatch_host = ([Run dpkg_command], Returns versions)
    /\ NoDup versions
    /\ forall v, v ∈ versions <->
                 exists line, line ∈ splitlines mismatch_dpkg_output
                              /\ str_in (lit "  libc++") line = true
                              /\ re_search mismatch_host (lit "1:") (lit "~") line = Some v.
Proof.
  exact (package_versions_come_from_libcxx_lines mismatch_host mismatch_dpkg_output eq_refl).
Defined.

(** ** The file name (lines 175-195) *)

Lemma ascii_test_is_class (h : Host) (c : N) :
  c < 128 -> str_in (lower h c) alphabet = safe_char c.
Proof.
  intros Hc.
  assert (H : Forall (fun n => str_in (lower h (N.of_nat n)) alphabet = safe_char (N.of_nat n))
                     (seq 0 128)).
  { vm_compute. repeat constructor. }
  rewrite Forall_forall in H. specialize (H (N.to_nat c)).
  rewrite N2Nat.id in H. apply H. apply elem_of_seq. lia.
Qed.

Lemma safe_char_ascii (c : N) : safe_char c = true -> c < 128.
Proof.
  unfold safe_char, underscore. intros H.
  repeat (apply orb_true_iff in H as [H|H]); try apply andb_true_iff in H as [_ H];
    try apply N.leb_le in H; try apply N.eqb_eq in H; lia.
Qed.

Lemma sanitize_ascii_eq (h : Host) (s : str) :
  Forall (fun c => c < 128) s -> sanitize h s = ascii_sanitize s.
Proof.
  unfold sanitize, ascii_sanitize. induction 1 as [|c s Hc Hs IH]; [reflexivity|].
  cbn [map]. by rewrite IH, (ascii_test_is_class h c Hc).
Qed.

(** X7. On a suffix of ASCII characters the transform is the one the class
    [[A-Za-z0-9_]] describes, on every host: letters keep their case, digits
    and underscores stay, everything else becomes an underscore. A suffix
    made of characters of the class is left as it is. *)
Theorem sanitize_on_ascii (h : Host) (s : str) :
  (Forall (fun c => c < 128) s -> sanitize h s = ascii_sanitize s)
  /\ (Forall (fun c => safe_char c = true) s -> sanitize h s = s).
Proof.
  split; [apply sanitize_ascii_eq|].
  intros Hsafe. rewrite sanitize_ascii_eq.
  - unfold ascii_sanitize.
    induction Hsafe as [|c s Hc Hs IH]; [reflexivity|].
    cbn [map]. by rewrite IH, Hc.
  - eapply Forall_impl; [exact Hsafe|]. intros c. apply safe_char_ascii.
Qed.

Lemma sanitize_on_ascii_witness :
  sanitize good_host (lit "branch_Release/19.x rc-1") = lit "branch_Release_19_x_rc_1"
  /\ sanitize good_host (lit "tag_llvmorg_18_1_0") = lit "tag_llvmorg_18_1_0".
Proof.
  split.
  - rewrite (proj1 (sanitize_on_ascii good_host (lit "branch_Release/19.x rc-1"))).
    + reflexivity.
    + vm_compute. repeat constructor.
  - apply (proj2 (sanitize_on_ascii good_host (lit "tag_llvmorg_18_1_0"))).
    vm_compute. repeat constructor.
Defined.

Lemma elem_of_sanitize (h : Host) (s : str) (c : N) :
  c ∈ sanitize h s ->
  c = underscore \/ (c ∈ s /\ str_in (lower h c) alphabet = true).
Proof.
  unfold sanitize. intros (x & -> & Hx)%list_elem_of_fmap.
  destruct (str_in (lower h x) alphabet) eqn:E; auto.
Qed.

Lemma sanitize_output_safe (h : Host) (s : str) (c : N) :
  c ∈ sanitize h s -> c < 128 -> safe_char c = true.
Proof.
  intros Hin Hc. apply elem_of_sanitize in Hin as [->|[_ Hk]]; [reflexivity|].
  by apply kept_ascii_is_safe with (h := h).
Qed.

Lemma sanitize_no_slash (h : Host) (s : str) : slash ∉ sanitize h s.
Proof. intros Hin. by apply sanitize_output_safe in Hin. Qed.

(** X8. Whatever the suffix and the host's tables, the transform keeps the
    length, is idempotent, and leaves no ASCII character outside
    [[A-Za-z0-9_]]: in particular no slash and no dot. *)
Theorem sanitized_suffix_shape (h : Host) (s : str) :
  length (sanitize h s) = length s
  /\ sanitize h (sanitize h s) = sanitize h s
  /\ (forall c, c ∈ sanitize h s -> c < 128 -> safe_char c = true)
  /\ (slash ∉ sanitize h s)
  /\ (dot ∉ sanitize h s).
Proof.
  split; [apply length_map|]. split; [apply sanitize_idempotent|].
  split; [apply sanitize_output_safe|].
  split; [apply sanitize_no_slash|].
  intros Hin. by apply sanitize_output_safe in Hin.
Qed.

Lemma select_file_suffix (h : Host) (args : Args) (sel : Selector) :
  result (select h args) = Returns sel ->
  exists name, file_suffix sel = channel_prefix (variant sel) ++ name.
Proof.
  unfold select.
  destruct (truthy (args_tag args)); [intros [= <-]; simpl; eauto|].
  destruct (truthy (args_branch args)); [intros [= <-]; simpl; eauto|].
  destruct (truthy (args_commit args)); [intros [= <-]; simpl; eauto|].
  destruct (find_libcxx_version h (args_libcxx_so args)) as [t [v|e|]];
    simpl; intros [= <-]; simpl.
  exists (lit "llvmorg_" ++ v). reflexivity.
Qed.

Lemma sanitize_app (h : Host) (s1 s2 : str) :
  sanitize h (s1 ++ s2) = sanitize h s1 ++ sanitize h s2.
Proof. apply map_app. Qed.

Lemma sanitize_channel_prefix (h : Host) (c : channel) :
  sanitize h (channel_prefix c) = channel_prefix c.
Proof. destruct c; reflexivity. Qed.

(** X9. The transform never touches the channel's prefix: the sanitized suffix
    of a returned selector starts with tag_, branch_ or commit_ as its
    channel says, so a branch, a commit and a tag never share a file,
    whatever characters their names hold. *)
Theorem channel_prefix_survives (h : Host) (args1 args2 : Args) (sel1 sel2 : Selector) :
  result (select h args1) = Returns sel1 ->
  result (select h args2) = Returns sel2 ->
  (exists name, sanitize h (file_suffix sel1) = channel_prefix (variant sel1) ++ name)
  /\ (channel_prefix (variant sel1) <> channel_prefix (variant sel2) ->
      sanitize h (file_suffix sel1) <> sanitize h (file_suffix sel2)).
Proof.
  intros H1 H2.
  destruct (select_file_suffix h args1 sel1 H1) as (n1 & E1).
  destruct (select_file_suffix h args2 sel2 H2) as (n2 & E2).
  rewrite E1, E2, !sanitize_app, !sanitize_channel_prefix.
  split; [eauto|].
  destruct (variant sel1), (variant sel2); simpl; intros Hne; try congruence;
    discriminate.
Qed.

Lemma channel_prefix_survives_witness :
  sanitize good_host (lit "branch_release/19.x") <> sanitize good_host (lit "tag_release/19.x").
Proof.
  refine (proj2 (channel_prefix_survives good_host
                   (branch_commit_args (lit "release/19.x") (lit "0123456789abcdef"))
                   (tag_args (lit "release/19.x") (lit "/tmp/x"))
                   {| variant := ViaBranch; url_middle := lit "refs/heads/release/19.x";
                      file_suffix := lit "branch_release/19.x" |}
                   {| variant := ViaTag; url_middle := lit "refs/tags/release/19.x";
                      file_suffix := lit "tag_release/19.x" |}
                   eq_refl eq_refl) _).
  discriminate.
Defined.

(** ** The destination (lines 33, 210) *)

Lemma split_on_nonempty (sep : N) (s : str) : split_on sep s <> [].
Proof.
  destruct s as [|c s]; simpl; [discriminate|].
  destruct (c =? sep); [discriminate|]. destruct (split_on sep s); discriminate.
Qed.

Lemma split_on_app_sep (sep : N) (d f : str) :
  split_on sep (d ++ [sep] ++ f) = split_on sep d ++ split_on sep f.
Proof.
  induction d as [|c d IH]; simpl.
  - by rewrite N.eqb_refl.
  - simpl in IH. rewrite IH. destruct (c =? sep); [reflexivity|].
    pose proof (split_on_nonempty sep d) as Hne.
    destruct (split_on sep d) as [|w ws]; [congruence|]. reflexivity.
Qed.

Lemma split_on_no_sep (sep : N) (f : str) : sep ∉ f -> split_on sep f = [f].
Proof.
  induction f as [|c f IH]; [reflexivity|].
  intros Hnot. simpl. destruct (c =? sep) eqn:E.
  - apply N.eqb_eq in E as ->. exfalso. apply Hnot. left.
  - rewrite IH; [reflexivity|]. intros Hin. apply Hnot. by right.
Qed.

Lemma path_root_before_name (d f : str) (x : N) :
  x <> slash ->
  path_root (d ++ [slash] ++ x :: f) = path_root (d ++ [slash]).
Proof.
  intros Hx. apply N.eqb_neq in Hx.
  destruct d as [|a [|b [|c d]]]; simpl; rewrite ?N.eqb_refl, ?Hx; reflexivity.
Qed.

Lemma path_root_trailing_slash (d : str) :
  d <> [] -> d <> [slash] -> d <> [slash; slash] ->
  path_root (d ++ [slash]) = path_root d.
Proof.
  intros H0 H1 H2. destruct d as [|a [|b [|c d]]]; [congruence| | |]; simpl.
  - destruct (a =? slash) eqn:Ea; [|reflexivity].
    apply N.eqb_eq in Ea. congruence.
  - destruct (a =? slash) eqn:Ea; [|reflexivity].
    destruct (b =? slash) eqn:Eb; [|reflexivity].
    apply N.eqb_eq in Ea, Eb. congruence.
  - reflexivity.
Qed.

(** X10. The destination file lies directly in the download directory, whatever
    the suffix holds: the directory that is created before the fetch has
    the components of the download directory and the root of that directory
    followed by a slash; it is the download directory itself unless that
    directory is given as the empty string, a single slash or a double
    slash. *)
Theorem destination_directory (h : Host) (d suffix : str) :
  parts (parent (Path (dest_path d (lit "libcxx_printers_" ++ sanitize h suffix))))
  = parts (Path d)
  /\ root (parent (Path (dest_path d (lit "libcxx_printers_" ++ sanitize h suffix))))
     = path_root (d ++ [slash])
  /\ (d <> [] -> d <> [slash] -> d <> [slash; slash] ->
      parent (Path (dest_path d (lit "libcxx_printers_" ++ sanitize h suffix))) = Path d).
Proof.
  set (name := lit "libcxx_printers_" ++ sanitize h suffix ++ lit ".py").
  assert (Hdest : dest_path d (lit "libcxx_printers_" ++ sanitize h suffix)
                  = d ++ [slash] ++ name).
  { unfold dest_path, name. by rewrite <- !app_assoc. }
  assert (Hno : slash ∉ name).
  { unfold name. intros Hin. apply elem_of_app in Hin as [Hin|Hin].
    - vm_compute in Hin. apply list_elem_of_In in Hin. simpl in Hin.
      repeat (destruct Hin as [Hin|Hin]; [discriminate Hin|]). contradiction.
    - apply elem_of_app in Hin as [Hin|Hin].
      + by apply (sanitize_no_slash h suffix).
      + vm_compute in Hin. apply list_elem_of_In in Hin. simpl in Hin.
        repeat (destruct Hin as [Hin|Hin]; [discriminate Hin|]). contradiction. }
  assert (Hparts : parts (parent (Path (d ++ [slash] ++ name))) = parts (Path d)).
  { unfold parent, Path. cbn [parts].
    rewrite split_on_app_sep, (split_on_no_sep slash name Hno), filter_app.
    rewrite (filter_cons_True _ name []); [|reflexivity].
    rewrite filter_nil. apply removelast_last. }
  assert (Hroot : root (parent (Path (d ++ [slash] ++ name))) = path_root (d ++ [slash])).
  { unfold parent, Path. cbn [root]. unfold name.
    change (lit "libcxx_printers_" ++ sanitize h suffix ++ lit ".py")
      with (108 :: (lit "ibcxx_printers_" ++ sanitize h suffix ++ lit ".py")).
    apply path_root_before_name. discriminate. }
  rewrite Hdest. split; [exact Hparts|]. split; [exact Hroot|].
  intros H0 H1 H2. destruct (parent (Path (d ++ [slash] ++ name))) as [r ps].
  simpl in *. unfold Path. by rewrite Hparts, Hroot, path_root_trailing_slash.
Qed.

Lemma destination_directory_witness :
  parent (Path (dest_path (lit "/opt/gdb//printers/")
                  (lit "libcxx_printers_" ++ sanitize good_host (lit "branch_release/19.x"))))
  = Path (lit "/opt/gdb//printers/").
Proof.
  apply (proj2 (proj2 (destination_directory good_host (lit "/opt/gdb//printers/")
                         (lit "branch_release/19.x")))); discriminate.
Defined.

(** ** The run as a whole (lines 202-220) *)

Lemma main_install (h : Host) (fuel : nat) (args : Args) :
  main h fuel args = bind (parse_args h args) (install h fuel).
Proof. reflexivity. Qed.

Lemma main_after_parse (h : Host) (fuel : nat) (args : Args) (plan : Plan) :
  result (parse_args h args) = Returns plan ->
  main h fuel args =
  (events (parse_args h args) ++ events (install h fuel plan), result (install h fuel plan)).
Proof.
  intros Hp. rewrite main_install. destruct (parse_args h args) as [t r].
  simpl in Hp. subst r. unfold bind. by destruct (install h fuel plan).
Qed.

Lemma main_parse_fails (h : Host) (fuel : nat) (args : Args) :
  (forall plan, result (parse_args h args) <> Returns plan) ->
  main h fuel args = (events (parse_args h args),
                      match result (parse_args h args) with
                      | Returns _ => OutOfFuel
                      | Raises e => Raises e
                      | OutOfFuel => OutOfFuel
                      end).
Proof.
  intros Hp. rewrite main_install. destruct (parse_args h args) as [t [plan|e|]];
    [by destruct (Hp plan)|reflexivity|reflexivity].
Qed.

Lemma install_succeeds (h : Host) (fuel : nat) (plan : Plan) :
  install_ok h fuel plan -> install h fuel plan = (install_events plan, Returns tt).
Proof.
  intros (Hw & Hm & Hu & Ht). unfold install, download_file.
  rewrite Hw. simpl. rewrite Hm, Hu. simpl. rewrite Ht. reflexivity.
Qed.

Lemma install_exit_zero (h : Host) (fuel : nat) (plan : Plan) :
  exit_status (install h fuel plan) = Some 0%Z -> install_ok h fuel plan.
Proof.
  unfold install_ok, install, download_file, exit_status.
  destruct (has_write_access h fuel _) as [[|]|e|] eqn:Hw; simpl; try discriminate.
  2:{ destruct (has_write_access_only_oserror _ _ _ _ Hw) as [err ->]. discriminate. }
  destruct (Path_mkdir h _); simpl; try discriminate.
  destruct (urlopen_copy h _ _) as [t|]; simpl.
  { destruct t; discriminate. }
  destruct (write_text h _ _); simpl; try discriminate. done.
Qed.

(** X11. When the library path resolves, the destination is writable and mkdir,
    the fetch and the write of the auto-load script succeed, the run does,
    after [parse_args], exactly this and in this order: create the download
    directory, fetch the URL once with the 10 second timeout, report the URL
    and the saved file, write the auto-load script next to the library's
    real path under the auto-load root, report it; it exits with status 0. *)
Theorem successful_run (h : Host) (fuel : nat) (args : Args) (plan : Plan) :
  result (parse_args h args) = Returns plan ->
  install_ok h fuel plan ->
  main h fuel args = (events (parse_args h args) ++ install_events plan, Returns tt)
  /\ exit_status (main h fuel args) = Some 0%Z
  /\ network_calls (main h fuel args) = 1%nat.
Proof.
  intros Hp Hok. rewrite (main_after_parse h fuel args plan Hp), (install_succeeds h fuel plan Hok).
  split; [reflexivity|]. split; [reflexivity|].
  pose proof (network_calls_parse_args h args) as Hn.
  unfold network_calls in *. simpl. rewrite network_calls_app, Hn. reflexivity.
Qed.

Lemma successful_run_witness :
  exit_status (main good_host 8 (tag_args (lit "llvmorg-18.1.0") (lit "/tmp/x"))) = Some 0%Z
  /\ network_calls (main good_host 8 (tag_args (lit "llvmorg-18.1.0") (lit "/tmp/x"))) = 1%nat.
Proof.
  refine (proj2 (successful_run good_host 8 (tag_args (lit "llvmorg-18.1.0") (lit "/tmp/x"))
                   {| url := make_url (lit "refs/tags/llvmorg-18.1.0");
                      file_name := lit "libcxx_printers_tag_llvmorg_18_1_0";
                      download_to := lit "/tmp/x";
                      libcxx_so_path := default_libcxx_so |} eq_refl _)).
  repeat split.
Defined.

Lemma no_exit_bind {A B} (m : M A) (k : A -> M B) :
  no_exit m -> (forall a, no_exit (k a)) -> no_exit (bind m k).
Proof.
  intros Hm Hk c. destruct m as [t [a|e|]]; [|intros H; simpl in H; injection H as ->; by apply (Hm c)|discriminate].
  unfold bind. specialize (Hk a c). by destruct (k a).
Qed.

Lemma no_exit_find_real_path (h : Host) (path : str) : no_exit (find_real_path h path).
Proof.
  intros c. unfold find_real_path.
  destruct (os_path_exists h path), (os_path_isfile h path), (os_path_islink h path);
    discriminate.
Qed.

Lemma no_exit_run_command (h : Host) (args : list str) : no_exit (run_command h args).
Proof. intros c. unfold run_command. destruct (subprocess_run h args); discriminate. Qed.

Lemma no_exit_parse_args (h : Host) (args : Args) : no_exit (parse_args h args).
Proof.
  unfold parse_args. apply no_exit_bind.
  - unfold select.
    destruct (truthy (args_tag args)); [discriminate|].
    destruct (truthy (args_branch args)); [discriminate|].
    destruct (truthy (args_commit args)); [discriminate|].
    apply no_exit_bind; [|discriminate].
    unfold find_libcxx_version, find_libcxx_so_version, find_installed_libcxx_package_versions.
    apply no_exit_bind.
    + apply no_exit_bind; [apply no_exit_find_real_path|]. intros real.
      apply no_exit_bind; [apply no_exit_run_command|]. intros out.
      match goal with |- context [match ?l with _ => _ end] => destruct l as [|a [|b l']] end;
        discriminate.
    + intros v. apply no_exit_bind.
      * apply no_exit_bind; [apply no_exit_run_command|]. discriminate.
      * intros versions. apply no_exit_bind; [|discriminate].
        destruct (negb (list_in v versions)); discriminate.
  - intros sel. apply no_exit_bind; [apply no_exit_find_real_path|]. discriminate.
Qed.

Lemma main_exit_zero (h : Host) (fuel : nat) (args : Args) :
  exit_status (main h fuel args) = Some 0%Z ->
  exists plan,
    result (parse_args h args) = Returns plan
    /\ install_ok h fuel plan
    /\ main h fuel args = (events (parse_args h args) ++ install_events plan, Returns tt).
Proof.
  intros Hexit. destruct (result (parse_args h args)) as [plan|e|] eqn:Hp.
  - exists plan. split; [reflexivity|].
    rewrite (main_after_parse h fuel args plan Hp) in Hexit |- *.
    assert (Hok : install_ok h fuel plan) by (by apply install_exit_zero).
    split; [exact Hok|]. by rewrite (install_succeeds h fuel plan Hok).
  - rewrite main_parse_fails in Hexit by (intros plan; congruence).
    unfold exit_status in Hexit. simpl in Hexit. rewrite Hp in Hexit.
    destruct e; try discriminate. by destruct (no_exit_parse_args h args code).
  - rewrite main_parse_fails in Hexit by (intros plan; congruence).
    unfold exit_status in Hexit. simpl in Hexit. rewrite Hp in Hexit. discriminate.
Qed.

(** X12. A run of the script exits with status 0 in two cases only. Either
    argparse printed the help, and then nothing else was done; or argparse
    returned a namespace, [parse_args] returned a plan, the destination was
    writable, the directory was made, the fetch and the write of the
    auto-load script succeeded, and the events of the run are those of
    [parse_args] followed by the installation. *)
Theorem exit_zero_only_after_install (h : Host) (fuel : nat) (cl : command_line) :
  exit_status (script h fuel cl) = Some 0%Z ->
  (exists help,
      cl = HelpRequested help
      /\ script h fuel cl = ([Print help], Raises (SystemExit 0)))
  \/ (exists args plan,
         cl = Namespace args
         /\ result (parse_args h args) = Returns plan
         /\ install_ok h fuel plan
         /\ script h fuel cl =
            (events (parse_args h args) ++ install_events plan, Returns tt)).
Proof.
  destruct cl as [args|help|message]; simpl.
  - intros Hexit. right. destruct (main_exit_zero h fuel args Hexit) as (plan & Hp & Hok & Hm).
    exists args, plan. done.
  - intros _. left. exists help. done.
  - discriminate.
Qed.

Lemma exit_zero_only_after_install_witness :
  (exists help,
      Namespace no_args = HelpRequested help
      /\ script good_host 8 (Namespace no_args) = ([Print help], Raises (SystemExit 0)))
  \/ (exists args plan,
         Namespace no_args = Namespace args
         /\ result (parse_args good_host args) = Returns plan
         /\ install_ok good_host 8 plan
         /\ script good_host 8 (Namespace no_args) =
            (events (parse_args good_host args) ++ install_events plan, Returns tt)).
Proof.
  apply (exit_zero_only_after_install good_host 8 (Namespace no_args)).
  vm_compute. reflexivity.
Defined.

(** The two ways of argparse to end the run. *)
Example help_and_usage_exits (h : Host) (fuel : nat) (text : str) :
  exit_status (script h fuel (HelpRequested text)) = Some 0%Z
  /\ stdout_lines (script h fuel (HelpRequested text)) = [text]
  /\ exit_status (script h fuel (UsageError text)) = Some 2%Z
  /\ stdout_lines (script h fuel (UsageError text)) = [].
Proof. done. Qed.

Lemma network_calls_install (h : Host) (fuel : nat) (plan : Plan) :
  (network_calls (install h fuel plan) <= 1)%nat.
Proof.
  unfold install, download_file.
  destruct (has_write_access h fuel _) as [[|]|e|]; simpl; try (cbv; lia).
  destruct (Path_mkdir h _); simpl; try (cbv; lia).
  destruct (urlopen_copy h _ _) as [t|]; simpl; try (cbv; lia).
  destruct (write_text h _ _); cbv; lia.
Qed.

(** X13. No run calls the network more than once, on any host and whatever
    fails: a fetch is never retried. *)
Theorem at_most_one_network_call (h : Host) (fuel : nat) (args : Args) :
  (network_calls (main h fuel args) <= 1)%nat.
Proof.
  pose proof (network_calls_parse_args h args) as Hn.
  destruct (result (parse_args h args)) as [plan|e|] eqn:Hp.
  - rewrite (main_after_parse h fuel args plan Hp).
    pose proof (network_calls_install h fuel plan) as Hi.
    unfold network_calls in *. simpl. rewrite network_calls_app. lia.
  - rewrite main_parse_fails by (intros plan; congruence).
    unfold network_calls in *. simpl. lia.
  - rewrite main_parse_fails by (intros plan; congruence).
    unfold network_calls in *. simpl. lia.
Qed.

(** X14. When the download itself fails the run stops there: a failing mkdir
    ends the run with its OSError before any network call, a failing fetch
    ends it with the error of the handler after the one network call; in
    both cases nothing is printed after [parse_args] and no auto-load
    script is written. *)
Theorem failed_download_writes_no_script (h : Host) (fuel : nat) (args : Args) (plan : Plan) :
  result (parse_args h args) = Returns plan ->
  has_write_access h fuel (Path (dest_path (download_to plan) (file_name plan))) = Returns true ->
  (forall err,
      Path_mkdir h (parent (Path (dest_path (download_to plan) (file_name plan)))) = Some err ->
      main h fuel args =
      (events (parse_args h args)
       ++ [Mkdir (parent (Path (dest_path (download_to plan) (file_name plan))))],
       Raises (OSError err)))
  /\ (forall t,
         Path_mkdir h (parent (Path (dest_path (download_to plan) (file_name plan)))) = None ->
         urlopen_copy h (url plan) (dest_path (download_to plan) (file_name plan)) = Some t ->
         main h fuel args =
         (events (parse_args h args)
          ++ [Mkdir (parent (Path (dest_path (download_to plan) (file_name plan))));
              Urlopen (url plan) 10],
          Raises (download_handler (url plan) t))).
Proof.
  intros Hp Hw. rewrite (main_after_parse h fuel args plan Hp).
  split; [intros err Hm|intros t Hm Hu].
  all: unfold install, download_file; rewrite Hw; simpl; rewrite Hm; try rewrite Hu; reflexivity.
Qed.

Lemma failed_download_writes_no_script_witness :
  main mkdir_fails_host 8 (tag_args (lit "llvmorg-18.1.0") (lit "/tmp/x")) =
    ([Mkdir (Path (lit "/tmp/x"))], Raises (OSError (lit "[Errno 20] Not a directory")))
  /\ main (faulty_host None good_run (Some (HTTPError 404 (lit "Not Found"))) None) 8
       (tag_args (lit "llvmorg-18.1.0") (lit "/tmp/x")) =
     ([Mkdir (Path (lit "/tmp/x")); Urlopen (make_url (lit "refs/tags/llvmorg-18.1.0")) 10],
      Raises (RuntimeError
                (lit "HTTP Error: 404 Not Found" ++ [newline]
                 ++ in_quotes (make_url (lit "refs/tags/llvmorg-18.1.0")))
                (Some (Transport (HTTPError 404 (lit "Not Found")))))).
Proof.
  split.
  - exact (proj1 (failed_download_writes_no_script mkdir_fails_host 8
                    (tag_args (lit "llvmorg-18.1.0") (lit "/tmp/x"))
                    {| url := make_url (lit "refs/tags/llvmorg-18.1.0");
                       file_name := lit "libcxx_printers_tag_llvmorg_18_1_0";
                       download_to := lit "/tmp/x";
                       libcxx_so_path := default_libcxx_so |} eq_refl eq_refl)
             (lit "[Errno 20] Not a directory") eq_refl).
  - exact (proj2 (failed_download_writes_no_script
                    (faulty_host None good_run (Some (HTTPError 404 (lit "Not Found"))) None) 8
                    (tag_args (lit "llvmorg-18.1.0") (lit "/tmp/x"))
                    {| url := make_url (lit "refs/tags/llvmorg-18.1.0");
                       file_name := lit "libcxx_printers_tag_llvmorg_18_1_0";
                       download_to := lit "/tmp/x";
                       libcxx_so_path := default_libcxx_so |} eq_refl eq_refl)
             (HTTPError 404 (lit "Not Found")) eq_refl eq_refl).
Defined.

(** X15. When the printers file was fetched but the auto-load script cannot be
    written, the run has already reported the download and the saved file;
    it ends with the OSError of the write, exit status 1, and does not
    report an auto-load script. *)
Theorem script_write_failure (h : Host) (fuel : nat) (args : Args) (plan : Plan) (err : str) :
  result (parse_args h args) = Returns plan ->
  has_write_access h fuel (Path (dest_path (download_to plan) (file_name plan))) = Returns true ->
  Path_mkdir h (parent (Path (dest_path (download_to plan) (file_name plan)))) = None ->
  urlopen_copy h (url plan) (dest_path (download_to plan) (file_name plan)) = None ->
  write_text h (auto_load_path (libcxx_so_path plan))
    (auto_load_file_contents (download_to plan) (file_name plan)) = Some err ->
  main h fuel args =
    (events (parse_args h args) ++ take 5 (install_events plan), Raises (OSError err))
  /\ exit_status (main h fuel args) = Some 1%Z.
Proof.
  intros Hp Hw Hm Hu Ht. rewrite (main_after_parse h fuel args plan Hp).
  unfold install, download_file. rewrite Hw. simpl. rewrite Hm, Hu. simpl. rewrite Ht.
  split; reflexivity.
Qed.

Lemma script_write_failure_witness :
  stdout_lines (main write_fails_host 8 (tag_args (lit "llvmorg-18.1.0") (lit "/tmp/x"))) =
    [ lit "Successfully downloaded: 'https://raw.githubusercontent.com/llvm/llvm-project/refs/tags/llvmorg-18.1.0/libcxx/utils/gdb/libcxx/printers.py'";
      lit "...and saved file to: '/tmp/x/libcxx_printers_tag_llvmorg_18_1_0.py'" ]
  /\ exit_status (main write_fails_host 8 (tag_args (lit "llvmorg-18.1.0") (lit "/tmp/x")))
     = Some 1%Z.
Proof.
  destruct (script_write_failure write_fails_host 8
              (tag_args (lit "llvmorg-18.1.0") (lit "/tmp/x"))
              {| url := make_url (lit "refs/tags/llvmorg-18.1.0");
                 file_name := lit "libcxx_printers_tag_llvmorg_18_1_0";
                 download_to := lit "/tmp/x";
                 libcxx_so_path := default_libcxx_so |}
              (lit "[Errno 13] Permission denied") eq_refl eq_refl eq_refl eq_refl eq_refl)
    as [Hmain Hexit].
  split; [|exact Hexit]. rewrite Hmain. vm_compute. reflexivity.
Defined.

(** ** The auto-load script (lines 101-118) *)

Lemma splitlines_from_line (l rest cur : str) :
  Forall (fun c => is_linebreak c = false) l ->
  splitlines_from cur (l ++ newline :: rest) = (rev cur ++ l) :: splitlines_from [] rest.
Proof.
  intros Hl. revert cur. induction Hl as [|c l Hc Hl IH]; intros cur.
  - simpl. rewrite app_nil_r. by destruct rest.
  - simpl. rewrite Hc, IH. simpl. by rewrite <- app_assoc.
Qed.

Lemma splitlines_of_lines (lines : list str) :
  Forall (Forall (fun c => is_linebreak c = false)) lines ->
  splitlines (concat (map (fun l => l ++ [newline]) lines)) = lines.
Proof.
  unfold splitlines. induction 1 as [|l lines Hl Hls IH]; [reflexivity|].
  simpl. rewrite <- app_assoc. simpl. rewrite (splitlines_from_line l _ [] Hl).
  simpl. by rewrite IH.
Qed.

(** X16. Read back line by line, the auto-load script is the fixed template
    with the download directory in the pythondir assignment and the module
    name in the import and in the registration call, provided neither holds
    a line break. *)
Theorem auto_load_script_lines (download_to module_name : str) :
  Forall (fun c => is_linebreak c = false) download_to ->
  Forall (fun c => is_linebreak c = false) module_name ->
  splitlines (auto_load_file_contents download_to module_name) =
  [ lit "# Copyright 2025 Braden Ganetsky";
    lit "# Distributed under the Boost Software License, Version 1.0.";
    lit "# https://www.boost.org/LICENSE_1_0.txt";
    [];
    lit "import gdb";
    lit "import sys";
    [];
    lit "# Update module path. GCC does this with relative paths for";
    lit "# relocatability, but this script is much simpler";
    lit "pythondir = " ++ [dquote] ++ download_to ++ [dquote];
    lit "if not pythondir in sys.path:";
    lit "    sys.path.insert(0, pythondir)";
    [];
    lit "import " ++ module_name;
    module_name ++ lit ".register_libcxx_printer_loader()" ].
Proof.
  intros Hd Hm. unfold auto_load_file_contents. apply splitlines_of_lines.
  repeat (apply Forall_cons; split);
    try apply Forall_nil; repeat (apply Forall_app; split);
    try assumption; vm_compute; repeat constructor.
Qed.

Lemma auto_load_script_lines_witness :
  splitlines (auto_load_file_contents (lit "/tmp/x") (lit "libcxx_printers_tag_llvmorg_18_1_0"))
    !! 9%nat = Some (lit "pythondir = " ++ [dquote] ++ lit "/tmp/x" ++ [dquote]).
Proof.
  rewrite (auto_load_script_lines (lit "/tmp/x") (lit "libcxx_printers_tag_llvmorg_18_1_0")).
  - reflexivity.
  - vm_compute. repeat constructor.
  - vm_compute. repeat constructor.
Defined.

(** ** The derived channel end to end (lines 80-97, 184-198) *)

Lemma bind_returns {A B} (t : list event) (a : A) (k : A -> M B) :
  bind (t, Returns a) k = (t ++ events (k a), result (k a)).
Proof. unfold bind. by destruct (k a). Qed.

(** X17. Without an override, when the library path resolves, the scan returns
    lines with one version v and the package query completes: [parse_args]
    runs grep -r on the directory of the library's real path, then dpkg -l,
    prints at most the mismatch warning (with the package versions in the
    order in which the host's set yields them), and returns the plan for the
    tag llvmorg-v with the library's real path. *)
Theorem derived_channel_run (h : Host) (args : Args) (real out1 out2 v : str) :
  first_populated args = ViaDerived ->
  find_real_path h (args_libcxx_so args) = ret real ->
  subprocess_run h (grep_command (parent (Path real))) = Completed out1 ->
  extract_version_numbers h (splitlines out1) marker_prefix marker_suffix = [v] ->
  subprocess_run h dpkg_command = Completed out2 ->
  parse_args h args =
  ([Run (grep_command (parent (Path real))); Run dpkg_command]
   ++ (if list_in v (extract_version_numbers h (libcxx_lines out2) (lit "1:") (lit "~"))
       then []
       else [Print (mismatch_warning (args_libcxx_so args) v
                      (extract_version_numbers h (libcxx_lines out2) (lit "1:") (lit "~")))]),
   Returns {| url := make_url (lit "refs/tags/llvmorg-" ++ v);
              file_name := lit "libcxx_printers_" ++ sanitize h (lit "tag_llvmorg_" ++ v);
              download_to := args_download_to args;
              libcxx_so_path := real |}).
Proof.
  intros Hd Hreal Hgrep Hv Hdpkg.
  unfold parse_args. rewrite (select_derived h args Hd).
  unfold find_libcxx_version, find_libcxx_so_version, find_installed_libcxx_package_versions.
  rewrite Hreal, bind_ret. unfold run_command.
  change [lit "grep"; lit "-r"; cmake_var; Path_str (parent (Path real))]
    with (grep_command (parent (Path real))).
  change [lit "dpkg"; lit "-l"] with dpkg_command.
  rewrite Hgrep, Hdpkg.
  change (lit "set(" ++ cmake_var ++ lit " ") with marker_prefix.
  change (lit ")") with marker_suffix.
  unfold emit, ret, print.
  repeat (rewrite bind_returns; cbn [events result fst snd app]).
  rewrite Hv. cbn [events result fst snd app].
  repeat (rewrite bind_returns; cbn [events result fst snd app]).
  fold (libcxx_lines out2).
  destruct (list_in v _); cbn [negb]; unfold emit;
    repeat (rewrite bind_returns; cbn [events result fst snd app]); reflexivity.
Qed.

Lemma derived_channel_run_witness :
  parse_args mismatch_host no_args =
  ([Run (grep_command (parent (Path default_libcxx_so))); Run dpkg_command;
    Print (mismatch_warning default_libcxx_so (lit "19.0.0") [lit "18.1.8"])],
   Returns {| url := make_url (lit "refs/tags/llvmorg-19.0.0");
              file_name := lit "libcxx_printers_tag_llvmorg_19_0_0";
              download_to := default_download_to;
              libcxx_so_path := default_libcxx_so |}).
Proof.
  rewrite (derived_channel_run mismatch_host no_args default_libcxx_so one_version
             mismatch_dpkg_output (lit "19.0.0") eq_refl eq_refl eq_refl
             ltac:(vm_compute; reflexivity) eq_refl).
  vm_compute. reflexivity.
Defined.

Lemma version_char_cases (c : N) :
  is_version_char c = true ->
  c < 128 /\ (if safe_char c then c else underscore) = (if c =? dot then underscore else c)
  /\ (c <> dot -> c <> underscore).
Proof.
  unfold is_version_char. intros H. apply orb_true_iff in H as [H|H].
  - apply andb_true_iff in H as [H1 H2]. apply N.leb_le in H1, H2.
    assert (Hs : safe_char c = true).
    { unfold safe_char. rewrite (proj2 (N.leb_le 48 c) H1), (proj2 (N.leb_le c 57) H2).
      reflexivity. }
    rewrite Hs. assert (Hd : (c =? dot) = false) by (apply N.eqb_neq; unfold dot; lia).
    rewrite Hd. split; [lia|]. split; [reflexivity|]. unfold underscore. lia.
  - apply N.eqb_eq in H as ->. split; [reflexivity|]. split; [reflexivity|]. congruence.
Qed.

Lemma sanitize_version (h : Host) (v : str) :
  Forall (fun c => is_version_char c = true) v ->
  sanitize h v = map (fun c => if c =? dot then underscore else c) v.
Proof.
  intros Hv. rewrite sanitize_ascii_eq.
  - unfold ascii_sanitize. induction Hv as [|c v Hc Hv IH]; [reflexivity|].
    cbn [map]. rewrite IH. f_equal. apply (version_char_cases c Hc).
  - eapply Forall_impl; [exact Hv|]. intros c Hc. apply (version_char_cases c Hc).
Qed.

(** X18. On the derived channel a version written with ASCII digits is filed
    with its dots turned into underscores, and two different versions never
    share a file. *)
Theorem derived_versions_never_collide (h : Host) (v1 v2 : str) :
  Forall (fun c => is_version_char c = true) v1 ->
  Forall (fun c => is_version_char c = true) v2 ->
  sanitize h (file_suffix (derived_selector v1)) =
    lit "tag_llvmorg_" ++ map (fun c => if c =? dot then underscore else c) v1
  /\ (sanitize h (file_suffix (derived_selector v1)) =
      sanitize h (file_suffix (derived_selector v2)) -> v1 = v2).
Proof.
  intros H1 H2. cbn [derived_selector file_suffix].
  rewrite !sanitize_app, (sanitize_version h v1 H1), (sanitize_version h v2 H2).
  split; [reflexivity|].
  intros Heq. apply app_inv_head in Heq.
  revert v2 H2 Heq. induction H1 as [|c v1 Hc Hv1 IH]; intros v2 H2 Heq.
  - destruct v2; [reflexivity|discriminate].
  - destruct H2 as [|d v2 Hd Hv2]; [discriminate|].
    cbn [map] in Heq. injection Heq as Hcd Hrest.
    f_equal; [|by apply IH].
    pose proof (version_char_cases c Hc) as (_ & _ & Hcu).
    pose proof (version_char_cases d Hd) as (_ & _ & Hdu).
    destruct (c =? dot) eqn:Ec, (d =? dot) eqn:Ed.
    + apply N.eqb_eq in Ec, Ed. congruence.
    + apply N.eqb_neq in Ed. destruct (Hdu Ed). congruence.
    + apply N.eqb_neq in Ec. destruct (Hcu Ec). congruence.
    + exact Hcd.
Qed.

Lemma derived_versions_never_collide_witness :
  sanitize good_host (file_suffix (derived_selector (lit "19.1.7"))) = lit "tag_llvmorg_19_1_7".
Proof.
  refine (proj1 (derived_versions_never_collide good_host (lit "19.1.7") (lit "19.1.7") _ _)).
  - vm_compute. repeat constructor.
  - vm_compute. repeat constructor.
Defined.
